(** * Smart Study Scheduler: the planner and the progress ledger

    A shallow embedding of [smart_generate_plan], of the "Generate schedule"
    handler of [page_scheduler] and of the "Mark complete" / "Skip" handlers
    of [page_tasks] (src/app.py), with the properties of the allocation
    algorithm, of the ledger and of the streak counter; then of the other
    handlers of [page_scheduler], of the computations of [page_report], of
    the dashboard's focus block and of the sign-up, sign-in and
    forgot-password forms.

    Conventions of the embedding.
    - A Python [float] is an exact rational ([Q]); [==] on floats is [Qeq].
      [round(x, 2)] is rounding to the nearest hundredth, ties to the even
      hundredth; the bounds proved below use only that the result is within
      0.005 of [x].
    - A Python [int] is a [Z].
    - A Python [str] is a [string] whose characters are code points below 256.
    - A Python [dict] whose insertion order is observed (the subject totals,
      the plan) is an association list with unique keys.
    - A [datetime] is a number of microseconds ([Z]). The readings of
      [utcnow()] are a parameter: the scoring loop reads the clock once per
      subject, and [utcnow i] is its reading for the subject at position
      [i]. The exam date is a [datetime] or [None], as [page_scheduler]
      passes it, so that [exam_date - utcnow()] does not raise.
    - [int(s)] and [str(n)] are taken without the interpreter's optional
      limit on the number of digits. *)

From Stdlib Require Import ZArith QArith Qround Lqa Lia Bool.
From Stdlib Require Import List FinFun Permutation Sorted String Ascii.
From Stdlib Require Import DecimalString DecimalZ DecimalPos.
Import ListNotations.

Local Open Scope string_scope.
Local Open Scope Q_scope.

(** ** Python built-ins on floats *)

Module Py.

(** [a < b] on floats. *)
Definition Qlt_bool (a b : Q) : bool := negb (Qle_bool b a).

(** [min(a, b)]: the first argument unless the second is strictly smaller. *)
Definition min (a b : Q) : Q := if Qlt_bool b a then b else a.

(** [max(a, b)]: the first argument unless the second is strictly larger. *)
Definition max (a b : Q) : Q := if Qlt_bool a b then b else a.

(** Nearest integer, ties to even. *)
Definition round_half_even (x : Q) : Z :=
  let n := Qfloor x in
  match Qcompare (x - inject_Z n) (1 # 2) with
  | Lt => n
  | Gt => (n + 1)%Z
  | Eq => if Z.even n then n else (n + 1)%Z
  end.

(** [round(x, 2)]. *)
Definition round2 (x : Q) : Q := Qmake (round_half_even (x * 100)) 100.

(** [sum(...)] of floats, left to right from 0. *)
Definition sum (l : list Q) : Q := fold_left Qplus l 0.

(** [ord(c)]. *)
Definition ord (c : ascii) : nat := nat_of_ascii c.

(** [sum(ord(c) for c in s)]. *)
Fixpoint sum_ord (s : string) : nat :=
  match s with
  | EmptyString => 0%nat
  | String c r => (ord c + sum_ord r)%nat
  end.

(** [str(n)] for an int, as in an f-string. *)
Definition str (n : Z) : string := NilEmpty.string_of_int (Z.to_int n).

End Py.

(** ** Insertion-ordered dictionaries with string keys *)

Module Dict.

Section WithValue.
Context {V : Type}.

Definition t := list (string * V).

(** [d.get(k)] *)
Fixpoint get (k : string) (d : t) : option V :=
  match d with
  | [] => None
  | (k', v) :: r => if String.eqb k k' then Some v else get k r
  end.

(** [d[k] = v]: overwrite in place, or append a new key at the end. *)
Fixpoint set (k : string) (v : V) (d : t) : t :=
  match d with
  | [] => [(k, v)]
  | (k', v') :: r =>
      if String.eqb k k' then (k', v) :: r else (k', v') :: set k v r
  end.

Definition keys (d : t) : list string := map fst d.
Definition values (d : t) : list V := map snd d.

End WithValue.

Arguments t : clear implicits.

End Dict.

(** ** Data model *)

(** A subject dict: ["name"] is always present, ["difficulty"] may be missing. *)
Record Subject := mkSubject {
  name : string;
  difficulty : option string
}.

(** A task dict of a day's list. *)
Record Task := mkTask {
  subject : string;
  hours : Q;
  note : string
}.

Definition Plan := Dict.t (list Task).

(** ** Planner algorithm *)

Definition tips : list string :=
  [ "Focus on problem solving";
    "Review weak topics first";
    "Practice previous questions";
    "Do a short self-quiz";
    "Summarize key formulas";
    "Teach this topic to an imaginary friend" ].

Definition pick_focus_note (subject_name : string) : string :=
  let idx := (Py.sum_ord subject_name mod List.length tips)%nat in
  nth idx tips "".

Definition weights : Dict.t Q :=
  [ ("easy", 1); ("medium", 3 # 2); ("hard", 5 # 2) ].

(** [weights.get(s.get("difficulty", "medium"), 1.5)] *)
Definition weight (s : Subject) : Q :=
  let key := match difficulty s with Some d => d | None => "medium" end in
  match Dict.get key weights with
  | Some w => w
  | None => 3 # 2
  end.

Definition microseconds_per_day : Z := 86400000000.

(** [(a - b).days]: a timedelta is normalised so that [days] is the floor. *)
Definition timedelta_days (a b : Z) : Z := ((a - b) / microseconds_per_day)%Z.

(** The urgency factor of the scoring loop (lines 223-232). *)
Definition urgency (exam_date : option Z) (now : Z) : Q :=
  let urgency := 1 in
  match exam_date with
  | Some exam =>
      let days_until_exam := Z.max (timedelta_days exam now) 0 in
      if (days_until_exam <=? 7)%Z then
        urgency + inject_Z (8 - days_until_exam) * (12 # 100)
      else if (days_until_exam <=? 30)%Z then
        urgency + inject_Z (30 - days_until_exam) * (3 # 100)
      else urgency
  | None => urgency
  end.

(** [s["name"] in focus_subjects] *)
Definition str_in (x : string) (l : list string) : bool :=
  existsb (String.eqb x) l.

(** [1.15 if focus_subjects and s["name"] in focus_subjects else 1.0] *)
Definition boost (s : Subject) (focus_subjects : option (list string)) : Q :=
  match focus_subjects with
  | Some (f :: fs) => if str_in (name s) (f :: fs) then 115 # 100 else 1
  | _ => 1
  end.

(** One iteration of the scoring loop: the pair appended to [scores]. *)
Definition score (exam_date : option Z) (now : Z)
    (focus_subjects : option (list string)) (s : Subject) : string * Q :=
  (name s, weight s * urgency exam_date now * boost s focus_subjects).

(** The readings of [datetime.utcnow()] during one call of
    [smart_generate_plan]: the scoring loop reads the clock once per subject
    (line 226), and [utcnow i] is its reading for the subject at position
    [i]. *)
Definition Clock := nat -> Z.

(** A clock that shows [t] at every reading. *)
Definition at_time (t : Z) : Clock := fun _ => t.

(** The scoring loop (lines 221-234) from the subject at position [i] on. *)
Fixpoint scores_from (i : nat) (subjects : list Subject)
    (exam_date : option Z) (utcnow : Clock)
    (focus_subjects : option (list string)) : list (string * Q) :=
  match subjects with
  | [] => []
  | s :: rest =>
      score exam_date (utcnow i) focus_subjects s
      :: scores_from (S i) rest exam_date utcnow focus_subjects
  end.

Definition scores_of (subjects : list Subject) (exam_date : option Z)
    (utcnow : Clock) (focus_subjects : option (list string))
  : list (string * Q) :=
  scores_from 0 subjects exam_date utcnow focus_subjects.

(** [sum(s for _, s in scores) or 1.0] *)
Definition total_score_of (scores : list (string * Q)) : Q :=
  let t := Py.sum (map snd scores) in
  if Qeq_bool t 0 then 1 else t.

(** The dict comprehension of line 238. *)
Definition subj_totals_of (scores : list (string * Q))
    (total_score total_hours : Q) : Dict.t Q :=
  fold_left
    (fun d ns =>
       Dict.set (fst ns)
         (Py.max (1 # 2) (Py.round2 ((snd ns / total_score) * total_hours))) d)
    scores [].

(** [sorted(items, key=lambda x: -x[1])]: a stable sort, largest total first. *)
Fixpoint sorted_insert (x : string * Q) (l : list (string * Q))
  : list (string * Q) :=
  match l with
  | [] => [x]
  | y :: r =>
      if Py.Qlt_bool (- snd y) (- snd x) then y :: sorted_insert x r
      else x :: l
  end.

Definition sorted_desc (l : list (string * Q)) : list (string * Q) :=
  fold_right sorted_insert [] l.

(** State of the inner loop over [subject_order] for one day. *)
Record DayState := mkDayState {
  day_tasks : list Task;
  remaining : Q;
  subj_totals : Dict.t Q
}.

(** The inner [for name, _ in subject_order] loop (lines 247-259), with its
    [continue] and [break]. *)
Fixpoint allocate_day (days d : Z) (subject_order : list (string * Q))
    (st : DayState) : DayState :=
  match subject_order with
  | [] => st
  | (nm, _) :: rest =>
      match Dict.get nm (subj_totals st) with
      | None => allocate_day days d rest st
      | Some total =>
          if Qle_bool total (1 # 100) then allocate_day days d rest st
          else
            let remaining_days := Z.max 1 (days - d + 1) in
            let ideal_alloc := total / inject_Z remaining_days in
            let alloc :=
              Py.round2 (Py.min (remaining st) (Py.max (1 # 4) ideal_alloc)) in
            if Qle_bool alloc 0 then allocate_day days d rest st
            else
              let st' :=
                mkDayState
                  (day_tasks st ++ [mkTask nm alloc (pick_focus_note nm)])
                  (remaining st - alloc)
                  (Dict.set nm (total - alloc) (subj_totals st)) in
              if Qle_bool (remaining st') (1 # 100) then st'
              else allocate_day days d rest st'
      end
  end.

Definition review_task (h : Q) : Task :=
  mkTask "Review & Breaks" (Py.round2 h) "Light review / short breaks".

(** The closing task of a day (lines 260-261). *)
Definition close_day (st : DayState) : list Task :=
  if Py.Qlt_bool (1 # 100) (remaining st)
  then day_tasks st ++ [review_task (remaining st)]
  else day_tasks st.

Definition day_label (d : Z) : string := "Day " ++ Py.str d.

(** One iteration of the loop over days (lines 243-261). *)
Definition plan_day (hours_per_day : Q) (days : Z)
    (subject_order : list (string * Q))
    (acc : Plan * Dict.t Q) (d : Z) : Plan * Dict.t Q :=
  let st := allocate_day days d subject_order
              (mkDayState [] hours_per_day (snd acc)) in
  (Dict.set (day_label d) (close_day st) (fst acc), subj_totals st).

(** [range(1, days + 1)] *)
Definition day_range (days : Z) : list Z :=
  map (fun i => (1 + Z.of_nat i)%Z) (seq 0 (Z.to_nat days)).

(** The final pass of lines 262-263. *)
Definition positive_hours (tasks : list Task) : list Task :=
  filter (fun t => Py.Qlt_bool 0 (hours t)) tasks.

Definition smart_generate_plan (subjects : list Subject) (hours_per_day : Q)
    (days : Z) (exam_date : option Z) (utcnow : Clock)
    (focus_subjects : option (list string)) : Plan :=
  let scores := scores_of subjects exam_date utcnow focus_subjects in
  let total_score := total_score_of scores in
  let total_hours := hours_per_day * inject_Z days in
  let subj_totals := subj_totals_of scores total_score total_hours in
  let subject_order := sorted_desc subj_totals in
  let plan :=
    fst (fold_left (plan_day hours_per_day days subject_order)
           (day_range days) ([], subj_totals)) in
  map (fun dt => (fst dt, positive_hours (snd dt))) plan.

(** Total hours of a task list, [sum(float(t["hours"]) for t in tasks)]. *)
Definition tasks_hours (tasks : list Task) : Q := Py.sum (map hours tasks).

(** ** Progress ledger *)

(** A progress entry dict. [date] is the ISO timestamp of the completion. *)
Record Entry := mkEntry {
  day : string;
  tasks : list Task;
  completed : bool;
  date : option string
}.

(** The streak dict. *)
Record Streak := mkStreak {
  current : Z;
  best : Z
}.

(** The slots of [st.session_state] that belong to one user. *)
Record UserState := mkUserState {
  subjects : list Subject;
  plans : option Plan;
  progress : list Entry;
  streaks : Streak
}.

(** What a handler reports: the [st.error] / [st.success] / [st.warning] /
    [st.info] message it shows before returning, [Rendered] when the page is
    drawn and no handler runs, [Raised] for an uncaught exception. *)
Inductive Outcome :=
| Error (msg : string)
| Success (msg : string)
| Warning (msg : string)
| Info (msg : string)
| Rendered
| Raised (exn : string).

(** The ledger built from a plan (lines 479-481): one pending entry per day,
    with a copy of the day's tasks. *)
Definition ledger_of (plan : Plan) : list Entry :=
  map (fun dt => mkEntry (fst dt) (snd dt) false None) plan.

(** The "Generate schedule" handler of [page_scheduler] (lines 472-484).
    [hours_per_day], [days], [exam_dt] and [priority] are the values of the
    form's widgets. *)
Definition generate_schedule (st : UserState) (hours_per_day : Q) (days : Z)
    (exam_dt : option Z) (utcnow : Clock) (priority : list string)
  : UserState * Outcome :=
  match subjects st with
  | [] => (st, Error "Add at least one subject before generating a schedule.")
  | subs =>
      let plan :=
        smart_generate_plan subs hours_per_day days exam_dt utcnow
          (Some priority)
      in
      (mkUserState (subjects st) (Some plan) (ledger_of plan) (streaks st),
       Success "Schedule generated and saved.")
  end.

(** *** Python [==] on the ledger's dicts *)

Definition Task_eqb (a b : Task) : bool :=
  String.eqb (subject a) (subject b) && Qeq_bool (hours a) (hours b)
  && String.eqb (note a) (note b).

Fixpoint list_eqb {A} (eqb : A -> A -> bool) (l l' : list A) : bool :=
  match l, l' with
  | [], [] => true
  | x :: r, y :: r' => eqb x y && list_eqb eqb r r'
  | _, _ => false
  end.

Definition option_eqb {A} (eqb : A -> A -> bool) (a b : option A) : bool :=
  match a, b with
  | Some x, Some y => eqb x y
  | None, None => true
  | _, _ => false
  end.

Definition Entry_eqb (a b : Entry) : bool :=
  String.eqb (day a) (day b) && list_eqb Task_eqb (tasks a) (tasks b)
  && Bool.eqb (completed a) (completed b)
  && option_eqb String.eqb (date a) (date b).

(** [l.index(x)]: position of the first element equal to [x]. *)
Fixpoint list_index (x : Entry) (l : list Entry) : option nat :=
  match l with
  | [] => None
  | y :: r => if Entry_eqb y x then Some 0%nat
              else option_map S (list_index x r)
  end.

(** [l.remove(x)]: drop the first element equal to [x]. *)
Fixpoint list_remove (x : Entry) (l : list Entry) : option (list Entry) :=
  match l with
  | [] => None
  | y :: r => if Entry_eqb y x then Some r
              else option_map (cons y) (list_remove x r)
  end.

(** [l.insert(i, x)] *)
Definition list_insert (i : nat) (x : Entry) (l : list Entry) : list Entry :=
  firstn i l ++ x :: skipn i l.

(** *** Day labels *)

(** [c.isspace()] for a code point below 256. *)
Definition is_space (c : ascii) : bool :=
  let n := nat_of_ascii c in
  ((9 <=? n) && (n <=? 13) || (28 <=? n) && (n <=? 32)
   || (n =? 133) || (n =? 160))%nat.

(** [s.split()]: the maximal runs of characters that are not white space. *)
Fixpoint split (s : string) : list string :=
  match s with
  | EmptyString => []
  | String c r =>
      if is_space c then split r
      else
        match r with
        | EmptyString => [String c EmptyString]
        | String c' _ =>
            if is_space c' then String c EmptyString :: split r
            else
              match split r with
              | t :: ts => String c t :: ts
              | [] => [String c EmptyString]
              end
        end
  end.

(** The digits of an [int] literal: decimal digits, single underscores
    between them. [prev_digit] tells whether the previous character was a
    digit. *)
Fixpoint int_digits (s : string) (prev_digit : bool) : option Decimal.uint :=
  match s with
  | EmptyString => if prev_digit then Some Decimal.Nil else None
  | String c r =>
      if Ascii.eqb c "_" then
        if prev_digit then int_digits r false else None
      else uint_of_char c (int_digits r true)
  end.

(** [int(s)] for a string without white space; [None] is [ValueError]. *)
Definition int_of_str (s : string) : option Z :=
  match s with
  | String "+" r => option_map Z.of_uint (int_digits r false)
  | String "-" r =>
      option_map (fun u => (- Z.of_uint u)%Z) (int_digits r false)
  | _ => option_map Z.of_uint (int_digits s false)
  end.

(** Lines 570-573: the label of the following day, and the fallback label
    when the number of [day] cannot be read. *)
Definition next_label (day : string) : string :=
  match nth_error (split day) 1 with
  | Some tok =>
      match int_of_str tok with
      | Some n => "Day " ++ Py.str (n + 1)
      | None => day ++ " (tasks appended)"
      end
  | None => day ++ " (tasks appended)"
  end.

(** *** The handlers of [page_tasks] *)

(** The loop of lines 575-578: the first entry labelled [label]. *)
Definition find_day (label : string) (l : list Entry) : option Entry :=
  find (fun en => String.eqb (day en) label) l.

(** [found_next["tasks"].extend(...)]: the first entry labelled [label]
    receives [extra] after its own tasks. *)
Fixpoint extend_day (label : string) (extra : list Task) (l : list Entry)
  : list Entry :=
  match l with
  | [] => []
  | en :: r =>
      if String.eqb (day en) label
      then mkEntry (day en) (tasks en ++ extra) (completed en) (date en) :: r
      else en :: extend_day label extra r
  end.

(** Lines 549-557: the entry at position [i] of the ledger is marked
    complete and the streak is updated. *)
Definition mark_complete (st : UserState) (i : nat) (entry : Entry)
    (now_iso : string) : UserState * Outcome :=
  let entry' := mkEntry (day entry) (tasks entry) true (Some now_iso) in
  let s := streaks st in
  let s := mkStreak (current s + 1) (best s) in
  let s := mkStreak (current s) (Z.max (best s) (current s)) in
  (mkUserState (subjects st) (plans st)
     (firstn i (progress st) ++ entry' :: skipn (S i) (progress st)) s,
   Success (day entry ++ " marked complete. Your streak is now "
            ++ Py.str (current s) ++ " days!")).

(** Lines 566-586: the tasks of [entry] are carried to the following day and
    [entry] leaves the ledger. *)
Definition skip_entry (st : UserState) (entry : Entry) : UserState * Outcome :=
  match tasks entry with
  | [] => (st, Warning "This day has no tasks to skip.")
  | _ :: _ =>
      match list_index entry (progress st) with
      | None => (st, Raised "ValueError")
      | Some idx_in_list =>
          let next_label := next_label (day entry) in
          let progress1 :=
            match find_day next_label (progress st) with
            | Some _ => extend_day next_label (tasks entry) (progress st)
            | None =>
                list_insert (idx_in_list + 1)
                  (mkEntry next_label (tasks entry) false None) (progress st)
            end in
          match list_remove entry progress1 with
          | None =>
              (mkUserState (subjects st) (plans st) progress1 (streaks st),
               Raised "ValueError")
          | Some progress2 =>
              (mkUserState (subjects st) (plans st) progress2 (streaks st),
               Success ("Tasks moved from " ++ day entry ++ " to "
                        ++ next_label ++ ". Day skipped."))
          end
      end
  end.

(** [st.button(..., key=key)]: true on the run that follows a click on the
    widget with that key. The keys of a page are taken to be distinct, as
    they are when the labels of the ledger are. *)
Definition button (clicked : option string) (key : string) : bool :=
  match clicked with
  | Some k => String.eqb k key
  | None => false
  end.

(** The loop of [page_tasks] over a copy of the ledger; [i] is the position
    of the head of [entries] in the ledger. *)
Fixpoint tasks_loop (clicked : option string) (now_iso : string)
    (st : UserState) (i : nat) (entries : list Entry) : UserState * Outcome :=
  match entries with
  | [] => (st, Rendered)
  | entry :: rest =>
      if negb (completed entry) && button clicked ("complete_" ++ day entry)
      then mark_complete st i entry now_iso
      else if button clicked ("skip_" ++ day entry)
      then skip_entry st entry
      else tasks_loop clicked now_iso st (S i) rest
  end.

(** [not plan] *)
Definition no_plan (p : option Plan) : bool :=
  match p with
  | None | Some [] => true
  | Some (_ :: _) => false
  end.

Definition page_tasks (st : UserState) (clicked : option string)
    (now_iso : string) : UserState * Outcome :=
  if no_plan (plans st)
  then (st, Info "No schedule available. Create one in Scheduler.")
  else tasks_loop clicked now_iso st 0 (progress st).

(** The mutation interface of the ledger, as the page offers it. *)
Definition complete (day : string) (now_iso : string) (st : UserState)
  : UserState * Outcome :=
  page_tasks st (Some ("complete_" ++ day)) now_iso.

Definition skip (day : string) (st : UserState) : UserState * Outcome :=
  page_tasks st (Some ("skip_" ++ day)) "".

(** All the tasks of a ledger, entry after entry. *)
Definition ledger_tasks (l : list Entry) : list Task := flat_map tasks l.

(** Total hours of a ledger. *)
Definition ledger_hours (l : list Entry) : Q :=
  Py.sum (map (fun en => tasks_hours (tasks en)) l).

(** ** The scoring model in the words of the specification *)

(** The three difficulty tiers of the specification. *)
Inductive Difficulty := easy | medium | hard.

Definition difficulty_name (d : Difficulty) : string :=
  match d with
  | easy => "easy"
  | medium => "medium"
  | hard => "hard"
  end.

(** "easy = 1.0, medium = 1.5, hard = 2.5" *)
Definition base_weight_spec (d : Difficulty) : Q :=
  match d with
  | easy => 1
  | medium => 15 # 10
  | hard => 25 # 10
  end.

(** "1.0 plus (8 - d) x 0.12 when d <= 7, plus (30 - d) x 0.03 when
    7 < d <= 30, exactly 1.0 when d > 30 or no exam date is supplied, with
    d = max(days until exam, 0)" *)
Definition urgency_spec (days_until_exam : option Z) : Q :=
  match days_until_exam with
  | None => 1
  | Some du =>
      let d := Z.max du 0 in
      if (d <=? 7)%Z then 1 + inject_Z (8 - d) * (12 # 100)
      else if ((7 <? d) && (d <=? 30))%Z then 1 + inject_Z (30 - d) * (3 # 100)
      else 1
  end.

(** The focus set: nothing when no priority list is passed. *)
Definition focus_set (focus_subjects : option (list string)) : list string :=
  match focus_subjects with
  | Some l => l
  | None => []
  end.

(** "1.15 iff the subject's name is in the focus set and 1.0 otherwise" *)
Definition boost_spec (nm : string) (focus : list string) : Q :=
  if in_dec string_dec nm focus then 115 # 100 else 1.

(** ** Notions used in the statements and in their proofs *)

(** The hours a plan gives to one subject over all its days. *)
Definition subject_share (plan : Plan) (nm : string) : Q :=
  Py.sum
    (map hours
       (filter (fun t => String.eqb (subject t) nm)
          (List.concat (Dict.values plan)))).

(** [as_medium s]: the subject [s] with its difficulty set to "medium". *)
Definition as_medium (s : Subject) : Subject :=
  mkSubject (name s) (Some "medium").

(** The difficulty is missing or is none of the three known strings. *)
Definition unknown_difficulty (s : Subject) : bool :=
  match difficulty s with
  | None => true
  | Some d =>
      negb (String.eqb d "easy" || String.eqb d "medium" || String.eqb d "hard")
  end.



(** The subjects of scenarios A and B. *)
Definition math_history : list Subject :=
  [ mkSubject "Math" (Some "hard"); mkSubject "History" (Some "easy") ].

(** Every character of [s] satisfies [p]. *)
Fixpoint all_chars (p : ascii -> bool) (s : string) : bool :=
  match s with
  | EmptyString => true
  | String c r => p c && all_chars p r
  end.

(** The characters that [str(n)] writes. *)
Definition is_digit_or_minus (c : ascii) : bool :=
  match uint_of_char c (Some Decimal.Nil) with
  | Some _ => true
  | None => Ascii.eqb c "-"
  end.

(** The entries labelled [d] are all completed. *)
Definition all_completed (d : string) (l : list Entry) : bool :=
  forallb (fun en => negb (String.eqb (day en) d) || completed en) l.

(** A user with a plan of two days, nothing completed, no streak yet. *)
Definition two_days : UserState :=
  mkUserState math_history
    (Some [("Day 1", [mkTask "Math" 2 "Summarize key formulas"]);
           ("Day 2", [mkTask "History" 1 "Summarize key formulas"])])
    [ mkEntry "Day 1" [mkTask "Math" 2 "Summarize key formulas"] false None;
      mkEntry "Day 2" [mkTask "History" 1 "Summarize key formulas"] false None ]
    (mkStreak 0 0).

(** The invariant of the streak. *)
Definition streak_ok (st : UserState) : Prop :=
  (0 <= current (streaks st) <= best (streaks st))%Z.

(** A sequence of [complete] calls, each with its day and its time stamp. *)
Definition run_completes (ops : list (string * string)) (st : UserState)
  : UserState :=
  fold_left (fun st op => fst (complete (fst op) (snd op) st)) ops st.

(** The ledger after [entry], found between [pre] and [post], is skipped. *)
Definition carried (entry : Entry) (pre post : list Entry) : list Entry :=
  let nl := next_label (day entry) in
  match find_day nl (pre ++ post) with
  | Some _ => extend_day nl (tasks entry) (pre ++ post)
  | None => (pre ++ mkEntry nl (tasks entry) false None :: post)%list
  end.

(** ** Notions used in the further properties of the planner *)

(** The characters of a string, [list(s)]. *)
Definition chars (s : string) : list ascii := list_ascii_of_string s.

(** A positive whole number of hundredths. *)
Definition hundredths (q : Q) : Prop :=
  exists k : Z, (1 <= k)%Z /\ q = Qmake k 100.

(** What the inner loop maintains for every budget, positive or not: the
    tasks written so far and the hours left add up to the budget, and the
    hours of every task are a positive number of hundredths. *)
Definition day_sum_inv (h : Q) (st : DayState) : Prop :=
  tasks_hours (day_tasks st) + remaining st == h /\
  Forall (fun t => hundredths (hours t)) (day_tasks st).

(** A day list as the loop over days leaves it, for every budget. *)
Definition day_filled (h : Q) (tasks : list Task) : Prop :=
  h - (1 # 100) <= tasks_hours tasks /\
  Forall (fun t => hundredths (hours t)) tasks.

(** [subject_order] (line 241) for the inputs of [smart_generate_plan]. *)
Definition subject_order_of (subjects : list Subject) (hours_per_day : Q)
    (days : Z) (exam_date : option Z) (utcnow : Clock)
    (focus_subjects : option (list string)) : list (string * Q) :=
  let scores := scores_of subjects exam_date utcnow focus_subjects in
  sorted_desc
    (subj_totals_of scores (total_score_of scores)
       (hours_per_day * inject_Z days)).

(** [l] is [l'] with some elements left out, the order kept. *)
Inductive subseq {A : Type} : list A -> list A -> Prop :=
| subseq_nil : forall l', subseq [] l'
| subseq_take : forall x l l', subseq l l' -> subseq (x :: l) (x :: l')
| subseq_skip : forall x l l', subseq l l' -> subseq l (x :: l').

(** The shape of a day: tasks of subjects, in the order of [order], then
    the closing task or nothing. *)
Definition day_shape (order : list (string * Q)) (tasks : list Task) : Prop :=
  exists base closing,
    tasks = (base ++ closing)%list
    /\ subseq (map subject base) (map fst order)
    /\ (closing = [] \/ exists r, 1 # 100 < r /\ closing = [review_task r]).

(** ** The other handlers of [page_scheduler] *)

(** The "Add subject" form (lines 445-455): an empty name is ignored. *)
Definition add_subject (st : UserState) (name diff : string)
  : UserState * Outcome :=
  match name with
  | EmptyString => (st, Rendered)
  | _ =>
      (mkUserState (subjects st ++ [mkSubject name (Some diff)]) (plans st)
         (progress st) (streaks st),
       Success ("Added " ++ name))
  end.

(** The hours per day that "Regenerate with same settings" passes on
    (lines 495-498): the total of "Day 1" of the plan, or the user's goal
    when that day is missing, empty or sums to zero. *)
Definition regenerate_hours (plan : Plan) (goal_hours_per_day : Q) : Q :=
  let first :=
    match Dict.get "Day 1" plan with Some l => l | None => [] end in
  let hours :=
    match first with
    | [] => goal_hours_per_day
    | _ :: _ => tasks_hours first
    end in
  if Qeq_bool hours 0 then goal_hours_per_day else hours.

(** The "Regenerate with same settings" button (lines 489-505).
    [goal_hours_per_day] is [user.get("goal_hours_per_day", 3.0)]. *)
Definition regenerate_schedule (st : UserState) (goal_hours_per_day : Q)
    (utcnow : Clock) : UserState * Outcome :=
  match plans st with
  | None | Some [] =>
      (st, Warning "No existing plan to regenerate. Use Generate schedule.")
  | Some plan =>
      let days := Z.of_nat (List.length plan) in
      let hours := regenerate_hours plan goal_hours_per_day in
      let plan_new :=
        smart_generate_plan (subjects st) hours
          (if (days =? 0)%Z then 14%Z else days) None utcnow None in
      (mkUserState (subjects st) (Some plan_new) (ledger_of plan_new)
         (streaks st),
       Success "Schedule regenerated.")
  end.

(** ** The weekly report and the dashboard *)

(** [round(x, 1)] *)
Definition round1 (x : Q) : Q := Qmake (Py.round_half_even (x * 10)) 10.

(** [int(x)] of a float: the fraction is dropped. *)
Definition int_of_float (x : Q) : Z :=
  if Qle_bool 0 x then Qfloor x else Qceiling x.

(** [sorted(l, key=key, reverse=True)] and [l.sort(key=key, reverse=True)]:
    a stable sort, largest key first. *)
Fixpoint insert_desc {A : Type} (key : A -> Q) (x : A) (l : list A) : list A :=
  match l with
  | [] => [x]
  | y :: r =>
      if Py.Qlt_bool (key x) (key y) then y :: insert_desc key x r
      else x :: l
  end.

Definition sorted_reverse {A : Type} (key : A -> Q) (l : list A) : list A :=
  fold_right (insert_desc key) [] l.

(** [min(l, key=key)] of a non-empty list: the first least element. *)
Definition min_by {A : Type} (key : A -> Q) (x : A) (l : list A) : A :=
  fold_left (fun m y => if Py.Qlt_bool (key y) (key m) then y else m) l x.

(** Line 602: the hours of a task are added to those of its subject. *)
Definition add_hours (subj_hours : Dict.t Q) (t : Task) : Dict.t Q :=
  Dict.set (subject t)
    (match Dict.get (subject t) subj_hours with Some v => v | None => 0 end
     + hours t)
    subj_hours.

(** The loop of lines 600-604 over the ledger: hours per subject. *)
Definition subj_hours_of (progress : list Entry) : Dict.t Q :=
  fold_left (fun acc entry => fold_left add_hours (tasks entry) acc)
    progress [].

(** The loop of lines 600-604: number of completed entries. *)
Definition completed_days_of (progress : list Entry) : Z :=
  fold_left (fun n entry => if completed entry then (n + 1)%Z else n)
    progress 0%Z.

(** What [page_report] shows. *)
Record Report := mkReport {
  report_completed_days : Z;
  report_total_hours : Q;
  report_completion_rate : Q;
  report_chart : list (string * Q);
  report_productivity : Z;
  report_focus_area : option (string * Q)
}.

(** The computations of [page_report] (lines 588-652); [None] when the
    ledger is empty and the page shows "No progress tracked yet". *)
Definition page_report (progress : list Entry) : option Report :=
  match progress with
  | [] => None
  | _ :: _ =>
      let subj_hours := subj_hours_of progress in
      let completed_days := completed_days_of progress in
      let total_days := Z.of_nat (List.length progress) in
      let total_hours := Py.sum (Dict.values subj_hours) in
      let completion_rate :=
        if (total_days =? 0)%Z then 0
        else round1 ((inject_Z completed_days / inject_Z total_days) * 100) in
      let productivity :=
        Z.min 100
          (int_of_float
             ((completion_rate * (6 # 10)
               + Py.min (total_hours / 7) 6 * 10) / (16 # 10))) in
      Some (mkReport completed_days total_hours completion_rate
              (sorted_reverse snd subj_hours) productivity
              (match subj_hours with
               | [] => None
               | x :: r => Some (min_by snd x r)
               end))
  end.

(** The "Today's Focus" block of the dashboard (lines 761-774) on the
    ledger: the tasks of the first pending entry are sorted in place, and
    the subject and the note of its first task are shown. *)
Fixpoint todays_focus (plan_list : list Entry)
  : list Entry * option (string * string) :=
  match plan_list with
  | [] => ([], None)
  | item :: rest =>
      if completed item then
        let r := todays_focus rest in (item :: fst r, snd r)
      else
        match tasks item with
        | [] => (plan_list, None)
        | _ :: _ =>
            let sorted := sorted_reverse hours (tasks item) in
            (mkEntry (day item) sorted (completed item) (date item) :: rest,
             match sorted with
             | t :: _ =>
                 match subject t with
                 | EmptyString => None
                 | _ => Some (subject t, note t)
                 end
             | [] => None
             end)
        end
  end.

(** ** Accounts and sessions *)

(** [st.session_state]: the accounts, the signed-in user, the study data of
    every user and the flags of the login page. The per-user files are read
    through a parameter [load_user_data]; writing them back changes no slot
    of the session and is left out. *)
Module Session.

(** A record of [st.session_state.users]. *)
Record User := mkUser {
  name : string;
  username : string;
  email : string;
  password : string;
  photo : option string;
  goal_hours_per_day : Q
}.

(** The content of a per-user file; a key that the file lacks is [None]. *)
Record UserData := mkUserData {
  ud_subjects : option (list Subject);
  ud_plan : option Plan;
  ud_progress : option (list Entry);
  ud_streaks : option Streak;
  ud_notifications : option (list string)
}.

Record t := mk {
  users : Dict.t User;
  logged_in : option string;
  subjects : Dict.t (list Subject);
  plans : Dict.t (option Plan);
  progress : Dict.t (list Entry);
  streaks : Dict.t Streak;
  notifications : Dict.t (list string);
  show_signup : bool;
  show_forgot : bool
}.

(** [d.setdefault(k, v)] *)
Definition setdefault {V : Type} (k : string) (v : V) (d : Dict.t V)
  : Dict.t V :=
  match Dict.get k d with
  | Some _ => d
  | None => Dict.set k v d
  end.

(** [d.get(k, default)] on an optional key of a file. *)
Definition get_or {V : Type} (o : option V) (default : V) : V :=
  match o with
  | Some v => v
  | None => default
  end.

Definition ensure_user_storage (username : option string) (ss : t) : t :=
  match username with
  | None => ss
  | Some u =>
      mk (users ss) (logged_in ss)
        (setdefault u [] (subjects ss))
        (setdefault u None (plans ss))
        (setdefault u [] (progress ss))
        (setdefault u (mkStreak 0 0) (streaks ss))
        (setdefault u [] (notifications ss))
        (show_signup ss) (show_forgot ss)
  end.

(** Lines 334-340: the slots of a user are replaced by the content of the
    user's file, when there is one. *)
Definition load_slots (u : string) (ud : option UserData) (ss : t) : t :=
  match ud with
  | None => ss
  | Some ud =>
      mk (users ss) (logged_in ss)
        (Dict.set u (get_or (ud_subjects ud) []) (subjects ss))
        (Dict.set u (ud_plan ud) (plans ss))
        (Dict.set u (get_or (ud_progress ud) []) (progress ss))
        (Dict.set u (get_or (ud_streaks ud) (mkStreak 0 0)) (streaks ss))
        (Dict.set u (get_or (ud_notifications ud) []) (notifications ss))
        (show_signup ss) (show_forgot ss)
  end.

Definition is_empty (s : string) : bool :=
  match s with
  | EmptyString => true
  | _ => false
  end.

(** The submitted form of [page_signup_inline] (lines 279-292). *)
Definition page_signup_inline (ss : t)
    (name username email password confirm : string) : t * Outcome :=
  if is_empty username || is_empty password || is_empty email
  then (ss, Error "Please fill required fields.")
  else
    match Dict.get username (users ss) with
    | Some _ => (ss, Error "Username already taken.")
    | None =>
        let user :=
          mkUser (if is_empty name then username else name) username email
            password None 3 in
        let ss1 :=
          mk (Dict.set username user (users ss)) (logged_in ss)
            (subjects ss) (plans ss) (progress ss) (streaks ss)
            (notifications ss) (show_signup ss) (show_forgot ss) in
        let ss2 := ensure_user_storage (Some username) ss1 in
        (mk (users ss2) (logged_in ss2) (subjects ss2) (plans ss2)
           (progress ss2) (streaks ss2) (notifications ss2) false
           (show_forgot ss2),
         Success "Account created. You can now sign in.")
    end.

(** The submitted form of [page_login] (lines 328-345). *)
Definition page_login (ss : t) (load_user_data : string -> option UserData)
    (username password : string) : t * Outcome :=
  match Dict.get username (users ss) with
  | Some u =>
      if String.eqb (Session.password u) password then
        let ss1 :=
          mk (users ss) (Some username) (subjects ss) (plans ss)
            (progress ss) (streaks ss) (notifications ss) (show_signup ss)
            (show_forgot ss) in
        let ss2 := ensure_user_storage (Some username) ss1 in
        (load_slots username (load_user_data username) ss2,
         Success "Signed in. Proceed to the app.")
      else (ss, Error "Invalid credentials. Check username/password.")
  | None => (ss, Error "Invalid credentials. Check username/password.")
  end.



End Session.

(** A session without accounts, the sign-up form open. *)
Definition empty_session : Session.t :=
  Session.mk [] None [] [] [] [] [] true false.

(** The page shows a "Mark complete" button for [d]: there is a plan, and
    an entry labelled [d] is pending. *)
Definition has_pending (d : string) (st : UserState) : bool :=
  negb (no_plan (plans st))
  && existsb (fun en => negb (completed en) && String.eqb (day en) d)
       (progress st).

(** * Properties *)

(** ** Floats: comparisons, rounding and sums *)

Lemma Qlt_bool_true (a b : Q) : Py.Qlt_bool a b = true <-> a < b.
Proof.
  unfold Py.Qlt_bool. rewrite negb_true_iff.
  split; intro H.
  - apply Qnot_le_lt. intro L. apply Qle_bool_iff in L. congruence.
  - destruct (Qle_bool b a) eqn:E; [|reflexivity].
    apply Qle_bool_iff in E. lra.
Qed.

Lemma Qlt_bool_false (a b : Q) : Py.Qlt_bool a b = false <-> b <= a.
Proof.
  unfold Py.Qlt_bool. rewrite negb_false_iff. apply Qle_bool_iff.
Qed.

Lemma Qle_bool_false (a b : Q) : Qle_bool a b = false <-> b < a.
Proof.
  split; intro H.
  - apply Qnot_le_lt. intro L. apply Qle_bool_iff in L. congruence.
  - destruct (Qle_bool a b) eqn:E; [|reflexivity].
    apply Qle_bool_iff in E. lra.
Qed.

Lemma min_le_l (a b : Q) : Py.min a b <= a.
Proof.
  unfold Py.min. destruct (Py.Qlt_bool b a) eqn:E.
  - apply Qlt_bool_true in E. lra.
  - lra.
Qed.

Lemma round_half_even_near (y : Q) :
  y - (1 # 2) <= inject_Z (Py.round_half_even y) <= y + (1 # 2).
Proof.
  unfold Py.round_half_even.
  pose proof (Qfloor_le y) as Hlo.
  pose proof (Qlt_floor y) as Hhi.
  rewrite inject_Z_plus in Hhi.
  change (inject_Z 1) with 1 in Hhi.
  destruct (Qcompare (y - inject_Z (Qfloor y)) (1 # 2)) eqn:C.
  - apply Qeq_alt in C.
    destruct (Z.even (Qfloor y)).
    + lra.
    + rewrite inject_Z_plus. change (inject_Z 1) with 1. lra.
  - apply Qlt_alt in C. lra.
  - apply Qgt_alt in C.
    rewrite inject_Z_plus. change (inject_Z 1) with 1. lra.
Qed.

(** [round(x, 2)] is within half a hundredth of [x]. *)
Lemma round2_near (x : Q) :
  x - (1 # 200) <= Py.round2 x <= x + (1 # 200).
Proof.
  unfold Py.round2.
  pose proof (round_half_even_near (x * 100)) as H.
  set (k := Py.round_half_even (x * 100)) in *.
  assert (E : (k # 100) == inject_Z k * (1 # 100)).
  { rewrite (Qmake_Qdiv k 100). reflexivity. }
  revert E. generalize (k # 100). intros q E. lra.
Qed.

Lemma sum_snoc (l : list Q) (x : Q) : Py.sum (l ++ [x]) = Py.sum l + x.
Proof. unfold Py.sum. rewrite fold_left_app. reflexivity. Qed.

Lemma tasks_hours_snoc (l : list Task) (t : Task) :
  tasks_hours (l ++ [t]) = tasks_hours l + hours t.
Proof. unfold tasks_hours. rewrite map_app. apply sum_snoc. Qed.

(** ** Dictionaries *)

Lemma Dict_set_Forall {V} (P : string * V -> Prop) k v (d : Dict.t V) :
  Forall P d -> (forall k', P (k', v)) -> Forall P (Dict.set k v d).
Proof.
  intros Hd Hv. induction Hd as [|[k' v'] r Hx Hr IH]; simpl.
  - constructor; [apply Hv | constructor].
  - destruct (String.eqb k k'); constructor; auto.
Qed.

(** ** The budget of a day *)



Lemma positive_hours_id (tasks : list Task) :
  Forall (fun t => 0 < hours t) tasks -> positive_hours tasks = tasks.
Proof.
  induction 1 as [|t r Ht Hr IH]; simpl; [reflexivity|].
  apply Qlt_bool_true in Ht. rewrite Ht, IH. reflexivity.
Qed.





(** ** Scoring *)

Lemma weight_pos (s : Subject) : 0 < weight s.
Proof.
  unfold weight.
  destruct (Dict.get _ weights) as [w|] eqn:E; [|reflexivity].
  simpl in E.
  repeat match type of E with
         | (if ?c then _ else _) = _ => destruct c
         end;
    inversion E; reflexivity.
Qed.

Lemma urgency_ge_1 (exam_date : option Z) (now : Z) :
  1 <= urgency exam_date now.
Proof.
  unfold urgency. destruct exam_date as [exam|]; [|lra].
  set (d := Z.max (timedelta_days exam now) 0).
  destruct (d <=? 7)%Z eqn:E7.
  - apply Z.leb_le in E7.
    assert (H : 0 <= inject_Z (8 - d)).
    { change 0 with (inject_Z 0). rewrite <- Zle_Qle. lia. }
    nra.
  - destruct (d <=? 30)%Z eqn:E30; [|lra].
    apply Z.leb_le in E30.
    assert (H : 0 <= inject_Z (30 - d)).
    { change 0 with (inject_Z 0). rewrite <- Zle_Qle. lia. }
    nra.
Qed.

Lemma str_in_In (x : string) (l : list string) :
  str_in x l = true <-> In x l.
Proof.
  unfold str_in. rewrite existsb_exists. split.
  - intros (y & Hy & E). apply String.eqb_eq in E. subst. exact Hy.
  - intros H. exists x. split; [exact H | apply String.eqb_refl].
Qed.

Lemma boost_ge_1 (s : Subject) focus : 1 <= boost s focus.
Proof.
  unfold boost. destruct focus as [[|f fs]|]; try lra.
  destruct (str_in _ _); [|lra].
  unfold Qle. simpl. lia.
Qed.

Lemma boost_is_spec (s : Subject) focus :
  boost s focus = boost_spec (name s) (focus_set focus).
Proof.
  unfold boost, boost_spec, focus_set.
  destruct focus as [[|f fs]|].
  - destruct (in_dec string_dec (name s) []) as [[]|]; reflexivity.
  - destruct (str_in (name s) (f :: fs)) eqn:E;
      destruct (in_dec string_dec (name s) (f :: fs)) as [i|n];
      try reflexivity.
    + apply str_in_In in E. contradiction.
    + apply str_in_In in i. congruence.
  - destruct (in_dec string_dec (name s) []) as [[]|]; reflexivity.
Qed.

Lemma urgency_is_spec (exam_date : option Z) (now : Z) :
  urgency exam_date now
  = urgency_spec (option_map (fun e => timedelta_days e now) exam_date).
Proof.
  unfold urgency, urgency_spec. destruct exam_date as [exam|]; simpl;
    [|reflexivity].
  set (d := Z.max (timedelta_days exam now) 0).
  destruct (d <=? 7)%Z eqn:E7; [reflexivity|].
  apply Z.leb_gt in E7.
  replace (7 <? d)%Z with true by (symmetry; apply Z.ltb_lt; lia).
  simpl. destruct (d <=? 30)%Z; reflexivity.
Qed.

(** C6. The score of a subject of a known difficulty is the product of the
    tier's base weight, the urgency of the exam date and the priority boost,
    and it is strictly positive. *)
Theorem C6_score_formula :
  forall (s : Subject) (d : Difficulty) exam_date now focus_subjects,
    difficulty s = Some (difficulty_name d) ->
    snd (score exam_date now focus_subjects s)
    == base_weight_spec d
       * urgency_spec (option_map (fun e => timedelta_days e now) exam_date)
       * boost_spec (name s) (focus_set focus_subjects)
    /\ 0 < snd (score exam_date now focus_subjects s).
Proof.
  intros s d exam now focus Hd. split.
  - unfold score. simpl.
    rewrite <- urgency_is_spec, <- boost_is_spec.
    assert (W : weight s == base_weight_spec d).
    { unfold weight. rewrite Hd. destruct d; reflexivity. }
    rewrite W. reflexivity.
  - unfold score. simpl.
    pose proof (weight_pos s). pose proof (urgency_ge_1 exam now).
    pose proof (boost_ge_1 s focus).
    repeat apply Qmult_lt_0_compat; lra.
Qed.

Lemma C6_score_formula_witness :
  snd (score (Some (3 * microseconds_per_day)%Z) 0 (Some ["Math"])
         (mkSubject "Math" (Some "hard")))
  == (25 # 10) * urgency_spec (Some 3%Z) * boost_spec "Math" ["Math"]
  /\ 0 < snd (score (Some (3 * microseconds_per_day)%Z) 0 (Some ["Math"])
                (mkSubject "Math" (Some "hard"))).
Proof.
  apply (C6_score_formula (mkSubject "Math" (Some "hard")) hard
           (Some (3 * microseconds_per_day)%Z) 0 (Some ["Math"])).
  reflexivity.
Defined.

(** ** Unknown difficulties *)

Lemma weight_unknown (s : Subject) :
  unknown_difficulty s = true -> weight s = 3 # 2.
Proof.
  unfold unknown_difficulty, weight. destruct (difficulty s) as [d|].
  - rewrite negb_true_iff, !orb_false_iff. intros [[E M] H].
    simpl. rewrite E, M, H. reflexivity.
  - reflexivity.
Qed.

Lemma scores_from_unknown (s : Subject) pre post exam utcnow focus :
  weight s = 3 # 2 ->
  forall i,
    scores_from i (pre ++ s :: post) exam utcnow focus
    = scores_from i (pre ++ as_medium s :: post) exam utcnow focus.
Proof.
  intros W. induction pre as [|x pre IH]; intros i; simpl.
  - f_equal. unfold score, boost. simpl. rewrite W. reflexivity.
  - f_equal. apply IH.
Qed.

(** C10. A subject whose difficulty is missing or unknown is scored with
    the weight 1.5, and the plan is the one obtained with difficulty
    "medium" in its place. *)
Theorem C10_unknown_difficulty_is_medium :
  forall (s : Subject) pre post hours_per_day days exam_date now focus,
    unknown_difficulty s = true ->
    weight s = 3 # 2 /\
    smart_generate_plan (pre ++ s :: post) hours_per_day days exam_date now
      focus
    = smart_generate_plan (pre ++ as_medium s :: post) hours_per_day days
        exam_date now focus.
Proof.
  intros s pre post h days exam now focus Hu.
  pose proof (weight_unknown s Hu) as W.
  split; [exact W|].
  assert (E : scores_of (pre ++ s :: post) exam now focus
              = scores_of (pre ++ as_medium s :: post) exam now focus)
    by (apply scores_from_unknown; exact W).
  unfold smart_generate_plan. rewrite E. reflexivity.
Qed.

Lemma C10_unknown_difficulty_is_medium_witness :
  weight (mkSubject "Art" (Some "brutal")) = 3 # 2 /\
  smart_generate_plan
    ([mkSubject "Math" (Some "hard")] ++ mkSubject "Art" (Some "brutal") :: [])
    3 2 None (at_time 0) None
  = smart_generate_plan
      ([mkSubject "Math" (Some "hard")]
         ++ as_medium (mkSubject "Art" (Some "brutal")) :: [])
      3 2 None (at_time 0) None.
Proof.
  apply (C10_unknown_difficulty_is_medium (mkSubject "Art" (Some "brutal"))).
  reflexivity.
Defined.

(** ** Day labels of a plan *)

Lemma str_inj (a b : Z) : Py.str a = Py.str b -> a = b.
Proof.
  unfold Py.str. intros H. apply DecimalZ.to_int_inj.
  assert (E : Some (Z.to_int a) = Some (Z.to_int b)).
  { rewrite <- !NilEmpty.isi. rewrite H. reflexivity. }
  inversion E. reflexivity.
Qed.

Lemma day_label_inj (a b : Z) : day_label a = day_label b -> a = b.
Proof.
  unfold day_label. simpl. intros H. inversion H. apply str_inj. assumption.
Qed.

Lemma Dict_set_fresh {V} (k : string) (v : V) (d : Dict.t V) :
  ~ In k (Dict.keys d) -> Dict.set k v d = (d ++ [(k, v)])%list.
Proof.
  induction d as [|[k' v'] r IH]; simpl; intros H; [reflexivity|].
  destruct (String.eqb k k') eqn:E.
  - apply String.eqb_eq in E. subst. exfalso. apply H. left. reflexivity.
  - rewrite IH; [reflexivity|]. intro Hin. apply H. right. exact Hin.
Qed.

Lemma plan_loop_keys (h : Q) (days : Z) (order : list (string * Q)) ds :
  NoDup ds ->
  forall acc,
    (forall d, In d ds -> ~ In (day_label d) (Dict.keys (fst acc))) ->
    Dict.keys (fst (fold_left (plan_day h days order) ds acc))
    = (Dict.keys (fst acc) ++ map day_label ds)%list.
Proof.
  induction 1 as [|d ds Hd Hnd IH]; intros acc Hfresh; simpl.
  - rewrite app_nil_r. reflexivity.
  - rewrite IH.
    + unfold plan_day at 1. simpl.
      rewrite Dict_set_fresh by (apply Hfresh; left; reflexivity).
      unfold Dict.keys. rewrite map_app, <- app_assoc. reflexivity.
    + intros d' Hd'. unfold plan_day. simpl.
      rewrite Dict_set_fresh by (apply Hfresh; left; reflexivity).
      unfold Dict.keys. rewrite map_app, in_app_iff. simpl.
      intros [Hin|[Heq|[]]].
      * revert Hin. apply Hfresh. right. exact Hd'.
      * apply day_label_inj in Heq. subst. contradiction.
Qed.

Lemma day_range_NoDup (days : Z) : NoDup (day_range days).
Proof.
  unfold day_range. apply Injective_map_NoDup.
  - intros a b H. lia.
  - apply seq_NoDup.
Qed.

Lemma day_range_labels (days : Z) :
  map day_label (day_range days)
  = map (fun i => "Day " ++ Py.str (Z.of_nat i)) (seq 1 (Z.to_nat days)).
Proof.
  unfold day_range. rewrite <- seq_shift, !map_map.
  apply map_ext. intros i. unfold day_label.
  replace (1 + Z.of_nat i)%Z with (Z.of_nat (S i)) by lia. reflexivity.
Qed.

Lemma plan_keys subjects hours_per_day days exam_date now focus :
  Dict.keys
    (smart_generate_plan subjects hours_per_day days exam_date now focus)
  = map day_label (day_range days).
Proof.
  unfold smart_generate_plan, Dict.keys. rewrite map_map. simpl.
  change (map (fun x : string * list Task => fst x)) with
    (@Dict.keys (list Task)).
  rewrite plan_loop_keys.
  - reflexivity.
  - apply day_range_NoDup.
  - intros d _ [].
Qed.

(** C9. The keys of a generated plan are "Day 1", ..., "Day d", in this
    order, each once. *)
Theorem C9_day_coverage :
  forall subjects hours_per_day days exam_date now focus,
    subjects <> [] -> 0 < hours_per_day -> (1 <= days)%Z ->
    Dict.keys
      (smart_generate_plan subjects hours_per_day days exam_date now focus)
    = map (fun i => "Day " ++ Py.str (Z.of_nat i)) (seq 1 (Z.to_nat days))
    /\ NoDup
         (Dict.keys
            (smart_generate_plan subjects hours_per_day days exam_date now
               focus)).
Proof.
  intros subjects h days exam now focus _ _ _.
  rewrite plan_keys. split.
  - apply day_range_labels.
  - apply Injective_map_NoDup.
    + intros a b. apply day_label_inj.
    + apply day_range_NoDup.
Qed.

Lemma C9_day_coverage_witness :
  Dict.keys
    (smart_generate_plan [mkSubject "Math" (Some "hard")] 2 3 None (at_time 0) None)
  = ["Day 1"; "Day 2"; "Day 3"]
  /\ NoDup
       (Dict.keys
          (smart_generate_plan [mkSubject "Math" (Some "hard")] 2 3 None
             (at_time 0) None)).
Proof.
  apply (C9_day_coverage [mkSubject "Math" (Some "hard")] 2 3 None (at_time 0) None).
  - discriminate.
  - reflexivity.
  - lia.
Defined.

(** ** The exam date and the shares of the subjects *)

Lemma scores_from_urgency subjects e n e' n' focus :
  forall i,
    (forall j, (j < List.length subjects)%nat ->
               urgency e (n (i + j)%nat) = urgency e' (n' (i + j)%nat)) ->
    scores_from i subjects e n focus = scores_from i subjects e' n' focus.
Proof.
  induction subjects as [|s r IH]; intros i H; simpl; [reflexivity|].
  f_equal.
  - pose proof (H 0%nat ltac:(simpl; lia)) as H0.
    rewrite Nat.add_0_r in H0. unfold score. rewrite H0. reflexivity.
  - apply IH. intros j Hj.
    pose proof (H (S j) ltac:(simpl; lia)) as Hj'.
    rewrite Nat.add_succ_r in Hj'. exact Hj'.
Qed.

(** The plan depends on the exam date and on the clock through the urgency
    factors of the subjects only. *)
Lemma plan_urgency_only subjects h days e n e' n' focus :
  (forall i, (i < List.length subjects)%nat ->
             urgency e (n i) = urgency e' (n' i)) ->
  smart_generate_plan subjects h days e n focus
  = smart_generate_plan subjects h days e' n' focus.
Proof.
  intros H. unfold smart_generate_plan, scores_of.
  rewrite (scores_from_urgency subjects e n e' n' focus 0 H).
  reflexivity.
Qed.

(** The urgency takes the values of the exam dates 0 to 31 days ahead. *)
Lemma urgency_canonical (exam now : Z) :
  urgency (Some exam) now
  = urgency
      (Some (Z.min (Z.max (timedelta_days exam now) 0) 31
             * microseconds_per_day)%Z) 0.
Proof.
  unfold urgency.
  set (d := Z.max (timedelta_days exam now) 0).
  assert (E : timedelta_days (Z.min d 31 * microseconds_per_day) 0
              = Z.min d 31).
  { unfold timedelta_days. rewrite Z.sub_0_r. apply Z.div_mul.
    discriminate. }
  rewrite E.
  assert (Hd : (0 <= d)%Z) by (unfold d; lia).
  rewrite (Z.max_l (Z.min d 31) 0) by lia.
  destruct (Z_le_gt_dec d 30) as [Hle|Hgt].
  - rewrite (Z.min_l d 31) by lia. reflexivity.
  - rewrite (Z.min_r d 31) by lia.
    replace (d <=? 7)%Z with false by (symmetry; apply Z.leb_gt; lia).
    replace (d <=? 30)%Z with false by (symmetry; apply Z.leb_gt; lia).
    reflexivity.
Qed.

Lemma math_share_for_every_urgency (c : Z) :
  (0 <= c <= 31)%Z ->
  subject_share
    (smart_generate_plan math_history 4 2
       (Some (c * microseconds_per_day)%Z) (at_time 0) None) "Math"
  == 571 # 100.
Proof.
  intros Hc.
  assert (H : forallb
                (fun k =>
                   Qeq_bool
                     (subject_share
                        (smart_generate_plan math_history 4 2
                           (Some (Z.of_nat k * microseconds_per_day)%Z)
                           (at_time 0) None) "Math")
                     (571 # 100))
                (seq 0 32) = true)
    by (vm_compute; reflexivity).
  rewrite forallb_forall in H.
  specialize (H (Z.to_nat c)). rewrite Z2Nat.id in H by lia.
  apply Qeq_bool_eq, H, in_seq. lia.
Qed.

(** When the clock passes a whole day between the two readings, the exam
    date does change the shares, and Math loses. *)
Lemma math_share_with_split_readings :
  subject_share
    (smart_generate_plan math_history 4 2
       (Some (3 * microseconds_per_day)%Z)
       (fun i => match i with O => 0%Z | _ => 1%Z end) None) "Math"
  == 559 # 100.
Proof. vm_compute. reflexivity. Qed.

(** The shares of Math with an exam date, whatever it is, and without one,
    when the scoring loop reads the same number of days for both subjects. *)
Lemma math_share_same_days (exam : Z) (utcnow : Clock) :
  timedelta_days exam (utcnow 0%nat) = timedelta_days exam (utcnow 1%nat) ->
  subject_share
    (smart_generate_plan math_history 4 2 (Some exam) utcnow None) "Math"
  == 571 # 100
  /\ subject_share
       (smart_generate_plan math_history 4 2 None utcnow None) "Math"
     == 571 # 100.
Proof.
  intros H.
  rewrite (plan_urgency_only math_history 4 2 None utcnow None (at_time 0)
             None) by reflexivity.
  set (c := Z.min (Z.max (timedelta_days exam (utcnow 0%nat)) 0) 31).
  rewrite (plan_urgency_only math_history 4 2 (Some exam) utcnow
             (Some (c * microseconds_per_day)%Z) (at_time 0) None).
  - rewrite (math_share_for_every_urgency c) by (unfold c; lia).
    split; [|vm_compute]; reflexivity.
  - intros i Hi. unfold at_time. simpl in Hi.
    destruct i as [|[|i]]; [| |lia].
    + apply urgency_canonical.
    + unfold c. rewrite H. apply urgency_canonical.
Qed.

(** C3. The code does not do what the claim says: for Math (hard) and
    History (easy), 4 hours a day and 2 days, an exam date changes nothing
    as long as the scoring loop reads the same number of days for both
    subjects. Math keeps the 5.71 hours that it has without an exam date,
    so its share with the exam date is not strictly larger: the urgency
    multiplies the scores of all subjects alike. *)
Theorem C3_exam_date_changes_no_share :
  forall exam utcnow,
    timedelta_days exam (utcnow 0%nat) = timedelta_days exam (utcnow 1%nat) ->
    let with_exam :=
      smart_generate_plan math_history 4 2 (Some exam) utcnow None in
    let without_exam :=
      smart_generate_plan math_history 4 2 None utcnow None in
    subject_share with_exam "Math" == 571 # 100
    /\ subject_share without_exam "Math" == 571 # 100
    /\ ~ subject_share without_exam "Math" < subject_share with_exam "Math".
Proof.
  intros exam utcnow H with_exam without_exam.
  destruct (math_share_same_days exam utcnow H) as [E1 E2].
  subst with_exam without_exam.
  split; [exact E1|]. split; [exact E2|].
  rewrite E1, E2. apply Qlt_irrefl.
Qed.

Lemma C3_exam_date_changes_no_share_witness :
  let with_exam :=
    smart_generate_plan math_history 4 2 (Some (3 * microseconds_per_day)%Z)
      (at_time 0) None in
  let without_exam :=
    smart_generate_plan math_history 4 2 None (at_time 0) None in
  timedelta_days (3 * microseconds_per_day) 0 = 3%Z
  /\ subject_share with_exam "Math" == 571 # 100
  /\ subject_share without_exam "Math" == 571 # 100
  /\ ~ subject_share without_exam "Math" < subject_share with_exam "Math".
Proof.
  split; [reflexivity|].
  apply (C3_exam_date_changes_no_share (3 * microseconds_per_day)%Z
           (at_time 0)).
  reflexivity.
Defined.

(** ** Inputs that the allocator does not refuse *)

Lemma round_half_even_nonpos (y : Q) :
  y <= 0 -> (Py.round_half_even y <= 0)%Z.
Proof.
  intros Hy. unfold Py.round_half_even.
  pose proof (Qfloor_le y) as Hlo.
  assert (Hn : (Qfloor y <= 0)%Z).
  { rewrite Zle_Qle. change (inject_Z 0) with 0. lra. }
  assert (Hn1 : y - inject_Z (Qfloor y) < 1 # 2 \/ (Qfloor y + 1 <= 0)%Z).
  { destruct (Z.eq_dec (Qfloor y) 0) as [E|E]; [|right; lia].
    left. rewrite E. change (inject_Z 0) with 0. lra. }
  destruct (Qcompare (y - inject_Z (Qfloor y)) (1 # 2)) eqn:C.
  - apply Qeq_alt in C. destruct Hn1 as [Hlt|Hle]; [lra|].
    destruct (Z.even (Qfloor y)); lia.
  - exact Hn.
  - apply Qgt_alt in C. destruct Hn1 as [Hlt|Hle]; [lra | exact Hle].
Qed.

Lemma round2_nonpos (x : Q) : x <= 0 -> Py.round2 x <= 0.
Proof.
  intros Hx. unfold Py.round2.
  assert (H : (Py.round_half_even (x * 100) <= 0)%Z)
    by (apply round_half_even_nonpos; lra).
  unfold Qle. simpl. lia.
Qed.

(** Without a positive budget the inner loop allocates nothing. *)
Lemma allocate_day_no_budget (days d : Z) (order : list (string * Q)) st :
  remaining st <= 0 -> allocate_day days d order st = st.
Proof.
  intros Hr. induction order as [|[nm x] rest IH]; simpl; [reflexivity|].
  destruct (Dict.get nm (subj_totals st)) as [total|]; [|exact IH].
  destruct (Qle_bool total (1 # 100)); [exact IH|].
  match goal with
  | |- (if Qle_bool (Py.round2 ?m) 0 then _ else _) = _ =>
      assert (Hm : Py.round2 m <= 0)
  end.
  { apply round2_nonpos. pose proof (min_le_l (remaining st)
      (Py.max (1 # 4) (total / inject_Z (Z.max 1 (days - d + 1))))). lra. }
  apply Qle_bool_iff in Hm. rewrite Hm. exact IH.
Qed.

Lemma plan_loop_no_budget (h : Q) (days : Z) (order : list (string * Q)) ds :
  h <= 0 ->
  forall acc,
    Forall (fun kv => snd kv = []) (fst acc) ->
    Forall (fun kv => snd kv = [])
      (fst (fold_left (plan_day h days order) ds acc)).
Proof.
  intros Hh. induction ds as [|d ds IH]; intros acc Hacc; simpl.
  - exact Hacc.
  - apply IH. unfold plan_day. rewrite allocate_day_no_budget by exact Hh.
    simpl. apply Dict_set_Forall; [exact Hacc|].
    intros k'. simpl. unfold close_day. simpl.
    replace (Py.Qlt_bool (1 # 100) h) with false; [reflexivity|].
    symmetry. apply Qlt_bool_false. lra.
Qed.

Lemma plan_no_budget subjects h days exam now focus :
  h <= 0 ->
  Forall (fun kv => snd kv = [])
    (smart_generate_plan subjects h days exam now focus).
Proof.
  intros Hh. unfold smart_generate_plan.
  apply Forall_map. simpl.
  eapply Forall_impl;
    [|apply plan_loop_no_budget; [exact Hh | constructor]].
  intros kv E. simpl in E. rewrite E. reflexivity.
Qed.

Lemma plan_length subjects h days exam now focus :
  List.length (smart_generate_plan subjects h days exam now focus)
  = Z.to_nat days.
Proof.
  rewrite <- (length_map fst).
  change (map fst ?p) with (Dict.keys p).
  rewrite plan_keys. unfold day_range.
  rewrite !length_map. apply length_seq.
Qed.

(** C2 (as stated) fails: the allocator returns a plan for an empty
    subject list, and the handler stores a plan and a ledger when the hours
    per day are zero. *)
Lemma C2_counterexample :
  smart_generate_plan [] 4 2 None (at_time 0) None
  = [ ("Day 1", [mkTask "Review & Breaks" (400 # 100)
                   "Light review / short breaks"]);
      ("Day 2", [mkTask "Review & Breaks" (400 # 100)
                   "Light review / short breaks"]) ]
  /\ generate_schedule
       (mkUserState math_history None [] (mkStreak 0 0)) 0 2 None (at_time 0) []
     = (mkUserState math_history
          (Some [("Day 1", []); ("Day 2", [])])
          [mkEntry "Day 1" [] false None; mkEntry "Day 2" [] false None]
          (mkStreak 0 0),
        Success "Schedule generated and saved.").
Proof.
  split; vm_compute; reflexivity.
Qed.

(** C2 (amended). The "Generate schedule" handler refuses an empty subject
    list only: it reports an error and leaves the stored plan and ledger as
    they were. With subjects it always succeeds and stores the plan of
    [smart_generate_plan], which never fails, and a ledger of [days] entries
    (none when [days < 1]) whose days have no task unless the hours per day
    are positive. *)
Theorem C2_generation_guard :
  forall st hours_per_day days exam_dt now priority,
    let r := generate_schedule st hours_per_day days exam_dt now priority in
    match subjects st with
    | [] =>
        r = (st, Error "Add at least one subject before generating a schedule.")
    | _ :: _ =>
        snd r = Success "Schedule generated and saved."
        /\ plans (fst r)
           = Some (smart_generate_plan (subjects st) hours_per_day days
                     exam_dt now (Some priority))
        /\ progress (fst r)
           = ledger_of (smart_generate_plan (subjects st) hours_per_day days
                          exam_dt now (Some priority))
        /\ List.length (progress (fst r)) = Z.to_nat days
        /\ Forall (fun en => 0 < hours_per_day \/ tasks en = [])
             (progress (fst r))
    end.
Proof.
  intros st h days exam now priority r. subst r.
  unfold generate_schedule.
  destruct (subjects st) as [|s subs] eqn:Es; [reflexivity|].
  simpl. repeat split.
  - unfold ledger_of. rewrite length_map. apply plan_length.
  - unfold ledger_of. apply Forall_map. simpl.
    destruct (Qlt_le_dec 0 h) as [Hpos|Hle].
    + apply Forall_forall. intros x _. left. exact Hpos.
    + eapply Forall_impl; [|apply plan_no_budget; exact Hle].
      intros kv E. right. exact E.
Qed.

(** ** Reading and writing day labels *)

Lemma digit_or_minus_no_space (c : ascii) :
  is_digit_or_minus c = true -> is_space c = false.
Proof.
  destruct c as [[] [] [] [] [] [] [] []]; vm_compute;
    first [reflexivity | discriminate].
Qed.

Lemma string_of_uint_chars (u : Decimal.uint) :
  all_chars is_digit_or_minus (NilEmpty.string_of_uint u) = true.
Proof. induction u; simpl; auto. Qed.

Lemma str_chars (n : Z) : all_chars is_digit_or_minus (Py.str n) = true.
Proof.
  unfold Py.str. destruct (Z.to_int n) as [u|u]; simpl;
    apply string_of_uint_chars.
Qed.

Lemma string_of_uint_nonempty (u : Decimal.uint) :
  u <> Decimal.Nil -> NilEmpty.string_of_uint u <> "".
Proof. destruct u; simpl; congruence. Qed.

Lemma str_nonempty (n : Z) : Py.str n <> "".
Proof.
  unfold Py.str. destruct n as [|p|p]; simpl; try discriminate.
  apply string_of_uint_nonempty, Unsigned.to_uint_nonnil.
Qed.

(** A non-empty string without white space is its own single token. *)
Lemma split_token (s : string) :
  s <> "" -> all_chars is_digit_or_minus s = true -> split s = [s].
Proof.
  induction s as [|c r IH]; [congruence|].
  intros _ H. simpl in H. apply andb_true_iff in H. destruct H as [Hc Hr].
  simpl. rewrite (digit_or_minus_no_space c Hc).
  destruct r as [|c' r']; [reflexivity|].
  assert (Hc' : is_space c' = false).
  { simpl in Hr. apply andb_true_iff in Hr.
    apply digit_or_minus_no_space, Hr. }
  rewrite Hc'. rewrite IH by (congruence || assumption). reflexivity.
Qed.

Lemma split_day_label (n : Z) : split (day_label n) = ["Day"; Py.str n].
Proof.
  unfold day_label.
  change (split ("Day " ++ Py.str n)) with ("Day" :: split (Py.str n)).
  rewrite split_token; [reflexivity | apply str_nonempty | apply str_chars].
Qed.

Lemma int_digits_uint (u : Decimal.uint) :
  int_digits (NilEmpty.string_of_uint u) true = Some u.
Proof. induction u; simpl; try rewrite IHu; reflexivity. Qed.

Lemma int_of_str_uint (u : Decimal.uint) :
  u <> Decimal.Nil ->
  int_of_str (NilEmpty.string_of_uint u) = Some (Z.of_uint u).
Proof.
  destruct u; [congruence|..]; intros _; simpl;
    rewrite int_digits_uint; reflexivity.
Qed.

Lemma int_digits_leading (u : Decimal.uint) :
  u <> Decimal.Nil -> int_digits (NilEmpty.string_of_uint u) false = Some u.
Proof.
  destruct u; [congruence|..]; intros _; simpl;
    rewrite int_digits_uint; reflexivity.
Qed.

(** [int(str(n)) == n] *)
Lemma int_of_str_str (n : Z) : int_of_str (Py.str n) = Some n.
Proof.
  unfold Py.str. pose proof (DecimalZ.of_to n) as E.
  destruct n as [|p|p]; try reflexivity.
  - simpl in *. rewrite int_of_str_uint by apply Unsigned.to_uint_nonnil.
    rewrite E. reflexivity.
  - simpl in *.
    rewrite int_digits_leading by apply Unsigned.to_uint_nonnil.
    simpl. rewrite E. reflexivity.
Qed.

(** "Day N" is followed by "Day N+1". *)
Lemma next_label_day_label (n : Z) :
  next_label (day_label n) = day_label (n + 1).
Proof.
  unfold next_label. rewrite split_day_label. simpl.
  rewrite int_of_str_str. reflexivity.
Qed.

Lemma append_length (a b : string) :
  String.length (a ++ b) = (String.length a + String.length b)%nat.
Proof. induction a as [|c a IH]; simpl; [|rewrite IH]; reflexivity. Qed.

Lemma append_suffix_neq (a b : string) : b <> "" -> a ++ b <> a.
Proof.
  intros Hb E. apply (f_equal String.length) in E.
  rewrite append_length in E. destruct b; [congruence|]. simpl in E. lia.
Qed.

(** The following label is never the label itself. *)
Lemma next_label_neq (d : string) : next_label d <> d.
Proof.
  unfold next_label.
  destruct (nth_error (split d) 1) as [tok|] eqn:Et;
    [destruct (int_of_str tok) as [n|] eqn:En|];
    try (apply append_suffix_neq; discriminate).
  intros E. change ("Day " ++ Py.str (n + 1)) with (day_label (n + 1)) in E.
  rewrite <- E, split_day_label in Et. simpl in Et.
  injection Et as <-. rewrite int_of_str_str in En.
  injection En as En. lia.
Qed.

(** ** The buttons of the task page *)

Lemma button_complete (d d' : string) :
  button (Some ("complete_" ++ d)) ("complete_" ++ d') = String.eqb d d'.
Proof. reflexivity. Qed.

Lemma button_complete_skip (d d' : string) :
  button (Some ("complete_" ++ d)) ("skip_" ++ d') = false.
Proof. reflexivity. Qed.

Lemma button_skip (d d' : string) :
  button (Some ("skip_" ++ d)) ("skip_" ++ d') = String.eqb d d'.
Proof. reflexivity. Qed.

Lemma button_skip_complete (d d' : string) :
  button (Some ("skip_" ++ d)) ("complete_" ++ d') = false.
Proof. reflexivity. Qed.

(** A click on "Mark complete" runs the completion handler of one entry, or
    no handler at all. *)
Lemma tasks_loop_complete_cases d now st entries :
  forall i,
    tasks_loop (Some ("complete_" ++ d)) now st i entries = (st, Rendered)
    \/ exists j en,
         tasks_loop (Some ("complete_" ++ d)) now st i entries
         = mark_complete st j en now.
Proof.
  induction entries as [|en rest IH]; intros i; cbn [tasks_loop];
    [left; reflexivity|].
  rewrite button_complete, button_complete_skip.
  destruct (negb (completed en) && String.eqb d (day en)).
  - right. exists i, en. reflexivity.
  - apply IH.
Qed.

Lemma tasks_loop_complete_done d now st entries :
  all_completed d entries = true ->
  forall i,
    tasks_loop (Some ("complete_" ++ d)) now st i entries = (st, Rendered).
Proof.
  induction entries as [|en rest IH]; intros H i; cbn [tasks_loop];
    [reflexivity|].
  simpl in H. apply andb_true_iff in H. destruct H as [Hen Hrest].
  rewrite button_complete, button_complete_skip, String.eqb_sym.
  destruct (completed en); simpl.
  - apply IH. exact Hrest.
  - rewrite orb_false_r in Hen. apply negb_true_iff in Hen.
    rewrite Hen. apply IH. exact Hrest.
Qed.

(** ** Completing a day twice *)

(** C5 (as stated) fails: the second completion of "Day 1" reports no error. *)
Lemma C5_counterexample :
  let st1 := fst (complete "Day 1" "2024-05-01T10:00:00" two_days) in
  completed (nth 0 (progress st1) (mkEntry "" [] false None)) = true
  /\ complete "Day 1" "2024-05-01T10:05:00" st1 = (st1, Rendered).
Proof.
  split; vm_compute; reflexivity.
Qed.

Lemma replace_middle {A} (pre post : list A) (x y : A) :
  (firstn (List.length pre) (pre ++ x :: post)
     ++ y :: skipn (S (List.length pre)) (pre ++ x :: post))%list
  = (pre ++ y :: post)%list.
Proof.
  induction pre as [|a r IH]; [reflexivity|].
  change (a :: (firstn (List.length r) (r ++ x :: post)
                  ++ y :: skipn (S (List.length r)) (r ++ x :: post))%list
          = a :: (r ++ y :: post)%list).
  rewrite IH. reflexivity.
Qed.

(** A successful completion marks one entry labelled [d], at its place. *)
Lemma tasks_loop_complete_success d now st st1 msg entries :
  forall done,
    progress st = (done ++ entries)%list ->
    tasks_loop (Some ("complete_" ++ d)) now st (List.length done) entries
    = (st1, Success msg) ->
    exists pre entry post,
      progress st = (pre ++ entry :: post)%list /\ day entry = d
      /\ progress st1
         = (pre ++ mkEntry (day entry) (tasks entry) true (Some now)
              :: post)%list
      /\ current (streaks st1) = (current (streaks st) + 1)%Z.
Proof.
  induction entries as [|en rest IH]; intros done Hp; cbn [tasks_loop];
    [discriminate|].
  rewrite button_complete, button_complete_skip.
  destruct (negb (completed en) && String.eqb d (day en)) eqn:E.
  - intros H. unfold mark_complete in H. injection H as <- _.
    apply andb_true_iff in E. destruct E as [_ E].
    apply String.eqb_eq in E.
    exists done, en, rest. cbn [progress streaks current].
    repeat split; auto.
    rewrite Hp. apply replace_middle.
  - intros H. apply (IH (done ++ [en])%list).
    + rewrite <- app_assoc. exact Hp.
    + rewrite length_app. simpl.
      replace (List.length done + 1)%nat with (S (List.length done)) by lia.
      exact H.
Qed.

Lemma all_completed_other (d : string) (l : list Entry) :
  ~ In d (map day l) -> all_completed d l = true.
Proof.
  intros H. unfold all_completed. apply forallb_forall. intros en Hen.
  replace (String.eqb (day en) d) with false; [reflexivity|].
  symmetry. apply String.eqb_neq. intros E. apply H. rewrite <- E.
  apply in_map. exact Hen.
Qed.

(** C5 (amended). Completing a day whose entries are all Completed reports
    no error and runs no handler: the page offers "Mark complete" for
    pending entries only; the ledger and the streak are unchanged. So, in
    a ledger with distinct labels, after a successful completion, which adds
    one to [current], a second completion of the same day changes nothing. *)
Theorem C5_complete_twice :
  forall st d now,
    (all_completed d (progress st) = true ->
     fst (complete d now st) = st
     /\ (snd (complete d now st) = Rendered
         \/ snd (complete d now st)
            = Info "No schedule available. Create one in Scheduler."))
    /\ (forall st0 now0 msg,
           NoDup (map day (progress st0)) ->
           complete d now0 st0 = (st, Success msg) ->
           current (streaks st) = (current (streaks st0) + 1)%Z
           /\ fst (complete d now st) = st
           /\ current (streaks (fst (complete d now st)))
              = (current (streaks st0) + 1)%Z).
Proof.
  intros st d now.
  assert (First :
    all_completed d (progress st) = true ->
    fst (complete d now st) = st
    /\ (snd (complete d now st) = Rendered
        \/ snd (complete d now st)
           = Info "No schedule available. Create one in Scheduler.")).
  { intros H. unfold complete, page_tasks.
    destruct (no_plan (plans st)).
    - split; [reflexivity | right; reflexivity].
    - rewrite tasks_loop_complete_done by exact H.
      split; [reflexivity | left; reflexivity]. }
  split; [exact First|].
  intros st0 now0 msg Hnd H.
  unfold complete, page_tasks in H.
  destruct (no_plan (plans st0)); [discriminate|].
  destruct (tasks_loop_complete_success d now0 st0 st msg (progress st0) []
              eq_refl H) as (pre & entry & post & Hp & Hd & Hp1 & Hc).
  assert (Hall : all_completed d (progress st) = true).
  { rewrite Hp, map_app in Hnd. simpl in Hnd.
    apply NoDup_remove_2 in Hnd. rewrite Hd in Hnd.
    rewrite Hp1. unfold all_completed.
    rewrite forallb_app. simpl. rewrite orb_true_r. simpl.
    apply andb_true_iff. split; apply all_completed_other;
      intros Hin; apply Hnd, in_or_app; [left | right]; exact Hin. }
  destruct (First Hall) as [Hsame _].
  rewrite Hsame. repeat split; assumption.
Qed.

Lemma C5_complete_twice_witness :
  let st1 := fst (complete "Day 1" "2024-05-01T10:00:00" two_days) in
  (fst (complete "Day 1" "2024-05-01T10:05:00" st1) = st1
   /\ (snd (complete "Day 1" "2024-05-01T10:05:00" st1) = Rendered
       \/ snd (complete "Day 1" "2024-05-01T10:05:00" st1)
          = Info "No schedule available. Create one in Scheduler."))
  /\ current (streaks st1) = 1%Z
  /\ current (streaks (fst (complete "Day 1" "2024-05-01T10:05:00" st1)))
     = 1%Z.
Proof.
  intros st1.
  destruct (C5_complete_twice st1 "Day 1" "2024-05-01T10:05:00")
    as [First Twice].
  split.
  - apply First. vm_compute. reflexivity.
  - destruct (Twice two_days "2024-05-01T10:00:00"
                "Day 1 marked complete. Your streak is now 1 days!")
      as (H1 & _ & H2).
    + repeat constructor; simpl; intuition discriminate.
    + vm_compute. reflexivity.
    + split; [exact H1 | exact H2].
Defined.

(** ** The streak *)

Lemma complete_cases d now st :
  complete d now st = (st, Rendered)
  \/ complete d now st
     = (st, Info "No schedule available. Create one in Scheduler.")
  \/ exists j en, complete d now st = mark_complete st j en now.
Proof.
  unfold complete, page_tasks. destruct (no_plan (plans st)).
  - right. left. reflexivity.
  - destruct (tasks_loop_complete_cases d now st (progress st) 0) as [H|H].
    + left. exact H.
    + right. right. exact H.
Qed.

Lemma complete_streak_ok d now st :
  streak_ok st -> streak_ok (fst (complete d now st)).
Proof.
  intros H.
  destruct (complete_cases d now st) as [E|[E|(j & en & E)]]; rewrite E;
    simpl; try exact H.
  unfold streak_ok in *. simpl. lia.
Qed.

(** A click on "Mark complete" reaches the first pending entry with that
    label. *)
Lemma tasks_loop_complete_first d now st entry pre post :
  all_completed d pre = true -> day entry = d -> completed entry = false ->
  forall i,
    tasks_loop (Some ("complete_" ++ d)) now st i (pre ++ entry :: post)
    = mark_complete st (i + List.length pre) entry now.
Proof.
  intros Hpre Hd Hc. induction pre as [|en r IH]; intros i;
    cbn [tasks_loop app].
  - rewrite button_complete, Hc, Hd, String.eqb_refl. simpl.
    rewrite Nat.add_0_r. reflexivity.
  - simpl in Hpre. apply andb_true_iff in Hpre. destruct Hpre as [Hen Hr].
    rewrite button_complete, button_complete_skip, String.eqb_sym.
    replace (negb (completed en) && String.eqb (day en) d) with false.
    + rewrite (IH Hr (S i)). simpl.
      replace (i + S (List.length r))%nat with (S (i + List.length r))
        by lia.
      reflexivity.
    + destruct (completed en); [reflexivity|]. simpl.
      rewrite orb_false_r in Hen. apply negb_true_iff in Hen.
      rewrite Hen. reflexivity.
Qed.

Lemma complete_spec st d now entry pre post :
  no_plan (plans st) = false ->
  progress st = (pre ++ entry :: post)%list ->
  all_completed d pre = true -> day entry = d -> completed entry = false ->
  complete d now st
  = (mkUserState (subjects st) (plans st)
       (pre ++ mkEntry d (tasks entry) true (Some now) :: post)
       (mkStreak (current (streaks st) + 1)
          (Z.max (best (streaks st)) (current (streaks st) + 1))),
     Success (d ++ " marked complete. Your streak is now "
              ++ Py.str (current (streaks st) + 1) ++ " days!")).
Proof.
  intros Hplan Hp Hpre Hd Hc. unfold complete, page_tasks. rewrite Hplan.
  rewrite Hp at 1.
  rewrite (tasks_loop_complete_first d now st entry pre post Hpre Hd Hc).
  unfold mark_complete. cbn [Nat.add]. rewrite Hp, replace_middle, Hd.
  reflexivity.
Qed.

(** The first pending entry with a label. *)
Lemma first_pending_split (d : string) (l : list Entry) :
  existsb (fun en => negb (completed en) && String.eqb (day en) d) l = true ->
  exists pre entry post,
    l = (pre ++ entry :: post)%list
    /\ all_completed d pre = true /\ day entry = d
    /\ completed entry = false.
Proof.
  induction l as [|en r IH]; simpl; [discriminate|].
  destruct (negb (completed en) && String.eqb (day en) d) eqn:E.
  - intros _. apply andb_true_iff in E. destruct E as [Ec Ed].
    apply negb_true_iff in Ec. apply String.eqb_eq in Ed.
    exists [], en, r. repeat split; assumption.
  - simpl. intros H. destruct (IH H) as (pre & entry & post & -> & Hp & Hd & Hc).
    exists (en :: pre), entry, post. repeat split; auto.
    simpl. rewrite Hp, andb_true_r.
    destruct (completed en); [apply orb_true_r|].
    simpl in E. rewrite E. reflexivity.
Qed.

Lemma no_pending_all_completed (d : string) (l : list Entry) :
  existsb (fun en => negb (completed en) && String.eqb (day en) d) l = false ->
  all_completed d l = true.
Proof.
  induction l as [|en r IH]; simpl; [reflexivity|].
  intros H. apply orb_false_iff in H. destruct H as [He Hr].
  rewrite (IH Hr), andb_true_r.
  destruct (completed en); [apply orb_true_r|].
  simpl in He. rewrite He. reflexivity.
Qed.

(** C8. From a streak with [best >= current >= 0], every sequence of
    [complete] calls keeps [best >= current]. After it, a [complete] of a
    day that has a pending entry succeeds, and a successful [complete] adds
    exactly one to [current] and sets [best] to the larger of [best] and the
    new [current]; a [complete] of a day without a pending entry does not
    succeed and leaves the streak as it is. *)
Theorem C8_streak_invariant :
  forall st ops,
    (0 <= current (streaks st) <= best (streaks st))%Z ->
    let st1 := run_completes ops st in
    (current (streaks st1) <= best (streaks st1))%Z
    /\ (forall d now st2 msg,
           complete d now st1 = (st2, Success msg) ->
           current (streaks st2) = (current (streaks st1) + 1)%Z
           /\ best (streaks st2)
              = Z.max (best (streaks st1)) (current (streaks st2))
           /\ (current (streaks st2) <= best (streaks st2))%Z)
    /\ (forall d now,
           has_pending d st1 = true ->
           exists st2 msg,
             complete d now st1 = (st2, Success msg)
             /\ current (streaks st2) = (current (streaks st1) + 1)%Z
             /\ best (streaks st2)
                = Z.max (best (streaks st1)) (current (streaks st1) + 1))
    /\ (forall d now,
           has_pending d st1 = false ->
           streaks (fst (complete d now st1)) = streaks st1
           /\ forall msg, snd (complete d now st1) <> Success msg).
Proof.
  intros st ops H st1. subst st1. split; [|split; [|split]].
  - assert (Hok : streak_ok (run_completes ops st)).
    { unfold run_completes. revert st H.
      induction ops as [|op ops IH]; intros st H; simpl; [exact H|].
      apply IH. apply complete_streak_ok. exact H. }
    destruct Hok as [_ Hok]. exact Hok.
  - intros d now st2 msg E.
    destruct (complete_cases d now (run_completes ops st))
      as [E'|[E'|(j & en & E')]];
      rewrite E' in E; try discriminate.
    unfold mark_complete in E. injection E as <- _. simpl.
    repeat split. lia.
  - intros d now Hp. set (st1 := run_completes ops st) in *.
    unfold has_pending in Hp. apply andb_true_iff in Hp.
    destruct Hp as [Hplan Hex]. apply negb_true_iff in Hplan.
    destruct (first_pending_split d (progress st1) Hex)
      as (pre & entry & post & Hpr & Hpre & Hd & Hc).
    eexists. eexists. split.
    + apply (complete_spec st1 d now entry pre post); assumption.
    + split; reflexivity.
  - intros d now Hp. set (st1 := run_completes ops st) in *.
    unfold has_pending in Hp. unfold complete, page_tasks.
    destruct (no_plan (plans st1)) eqn:Hplan.
    + split; [reflexivity | discriminate].
    + simpl in Hp.
      rewrite (tasks_loop_complete_done d now st1 (progress st1)
                 (no_pending_all_completed d _ Hp)).
      split; [reflexivity | discriminate].
Qed.

Lemma C8_streak_invariant_witness :
  let st1 := run_completes [("Day 1", "t1"); ("Day 1", "t2")] two_days in
  current (streaks st1) = 1%Z
  /\ best (streaks st1) = 1%Z
  /\ exists st2 msg,
       complete "Day 2" "t3" st1 = (st2, Success msg)
       /\ current (streaks st2) = (current (streaks st1) + 1)%Z
       /\ best (streaks st2)
          = Z.max (best (streaks st1)) (current (streaks st1) + 1).
Proof.
  intros st1. split; [reflexivity|]. split; [reflexivity|].
  destruct (C8_streak_invariant two_days
              [("Day 1", "t1"); ("Day 1", "t2")])
    as (_ & _ & Succeeds & _).
  - simpl. lia.
  - apply (Succeeds "Day 2" "t3"). reflexivity.
Defined.

(** ** Equality, search and removal in the ledger *)

Lemma Task_eqb_refl (t : Task) : Task_eqb t t = true.
Proof.
  unfold Task_eqb. rewrite !String.eqb_refl, Qeq_bool_refl. reflexivity.
Qed.

Lemma Entry_eqb_refl (en : Entry) : Entry_eqb en en = true.
Proof.
  unfold Entry_eqb. rewrite String.eqb_refl, Bool.eqb_reflx.
  assert (T : list_eqb Task_eqb (tasks en) (tasks en) = true).
  { induction (tasks en) as [|t r IH]; simpl;
      [|rewrite Task_eqb_refl, IH]; reflexivity. }
  rewrite T. destruct (date en); simpl;
    [apply String.eqb_refl | reflexivity].
Qed.

Lemma Entry_eqb_day (a b : Entry) : day a <> day b -> Entry_eqb a b = false.
Proof.
  intros H. unfold Entry_eqb. apply String.eqb_neq in H. rewrite H.
  reflexivity.
Qed.

Lemma find_day_None (d : string) (l : list Entry) :
  find_day d l = None <-> ~ In d (map day l).
Proof.
  unfold find_day. induction l as [|en r IH]; simpl.
  - split; [intros _ [] | reflexivity].
  - destruct (String.eqb (day en) d) eqn:E.
    + apply String.eqb_eq in E. split; [discriminate|].
      intros H. exfalso. apply H. left. exact E.
    + apply String.eqb_neq in E. rewrite IH. split.
      * intros H [H'|H']; contradiction.
      * intros H H'. apply H. right. exact H'.
Qed.

Lemma find_day_split (d : string) (l : list Entry) (entry : Entry) :
  find_day d l = Some entry ->
  exists pre post,
    l = (pre ++ entry :: post)%list /\ find_day d pre = None /\ day entry = d.
Proof.
  unfold find_day. induction l as [|en r IH]; simpl; [discriminate|].
  destruct (String.eqb (day en) d) eqn:E.
  - intros H. injection H as <-. exists [], r.
    apply String.eqb_eq in E. repeat split; assumption.
  - intros H. destruct (IH H) as (pre & post & -> & Hpre & Hd).
    exists (en :: pre), post. repeat split; [|exact Hd].
    simpl. rewrite E. exact Hpre.
Qed.

Lemma find_day_app (d : string) (a b : list Entry) :
  find_day d (a ++ b)
  = match find_day d a with
    | Some en => Some en
    | None => find_day d b
    end.
Proof.
  unfold find_day. induction a as [|en r IH]; simpl; [reflexivity|].
  destruct (String.eqb (day en) d); [reflexivity | exact IH].
Qed.

Lemma find_day_cons_other (d : string) (en : Entry) (l : list Entry) :
  day en <> d -> find_day d (en :: l) = find_day d l.
Proof.
  intros H. unfold find_day. simpl. apply String.eqb_neq in H.
  rewrite H. reflexivity.
Qed.

Lemma list_index_first (entry : Entry) (pre post : list Entry) :
  find_day (day entry) pre = None ->
  list_index entry (pre ++ entry :: post) = Some (List.length pre).
Proof.
  induction pre as [|en r IH]; simpl; intros H.
  - rewrite Entry_eqb_refl. reflexivity.
  - unfold find_day in H. simpl in H.
    destruct (String.eqb (day en) (day entry)) eqn:E; [discriminate|].
    apply String.eqb_neq in E. rewrite (Entry_eqb_day _ _ E).
    rewrite (IH H). reflexivity.
Qed.

Lemma list_remove_first (entry : Entry) (pre post : list Entry) :
  find_day (day entry) pre = None ->
  list_remove entry (pre ++ entry :: post) = Some (pre ++ post)%list.
Proof.
  induction pre as [|en r IH]; simpl; intros H.
  - rewrite Entry_eqb_refl. reflexivity.
  - unfold find_day in H. simpl in H.
    destruct (String.eqb (day en) (day entry)) eqn:E; [discriminate|].
    apply String.eqb_neq in E. rewrite (Entry_eqb_day _ _ E).
    rewrite (IH H). reflexivity.
Qed.

Lemma list_insert_after (x entry : Entry) (pre post : list Entry) :
  list_insert (List.length pre + 1) x (pre ++ entry :: post)
  = (pre ++ entry :: x :: post)%list.
Proof.
  unfold list_insert.
  replace (List.length pre + 1)%nat with (List.length (pre ++ [entry]))
    by (rewrite length_app; reflexivity).
  replace (pre ++ entry :: post)%list with ((pre ++ [entry]) ++ post)%list
    by (rewrite <- app_assoc; reflexivity).
  rewrite firstn_app, skipn_app, firstn_all, skipn_all, Nat.sub_diag.
  simpl. rewrite app_nil_r, <- app_assoc. reflexivity.
Qed.

Lemma extend_day_days (d : string) (extra : list Task) (l : list Entry) :
  map day (extend_day d extra l) = map day l.
Proof.
  induction l as [|en r IH]; simpl; [reflexivity|].
  destruct (String.eqb (day en) d); simpl; [|rewrite IH]; reflexivity.
Qed.

Lemma extend_day_app_hit (d : string) extra (a b : list Entry) en :
  find_day d a = Some en ->
  extend_day d extra (a ++ b) = (extend_day d extra a ++ b)%list.
Proof.
  unfold find_day. induction a as [|x r IH]; simpl; [discriminate|].
  destruct (String.eqb (day x) d); [reflexivity|].
  intros H. rewrite (IH H). reflexivity.
Qed.

Lemma extend_day_app_miss (d : string) extra (a b : list Entry) :
  find_day d a = None ->
  extend_day d extra (a ++ b) = (a ++ extend_day d extra b)%list.
Proof.
  unfold find_day. induction a as [|x r IH]; simpl; [reflexivity|].
  destruct (String.eqb (day x) d); [discriminate|].
  intros H. rewrite (IH H). reflexivity.
Qed.

Lemma skip_entry_spec (st : UserState) (entry : Entry) pre post :
  progress st = (pre ++ entry :: post)%list ->
  find_day (day entry) pre = None ->
  tasks entry <> [] ->
  skip_entry st entry
  = (mkUserState (subjects st) (plans st) (carried entry pre post)
       (streaks st),
     Success ("Tasks moved from " ++ day entry ++ " to "
              ++ next_label (day entry) ++ ". Day skipped.")).
Proof.
  intros Hp Hpre Ht. unfold skip_entry, carried.
  destruct (tasks entry) as [|t ts] eqn:Et; [congruence|]. clear Ht.
  rewrite Hp, (list_index_first entry pre post Hpre).
  set (nl := next_label (day entry)).
  assert (Hnl : day entry <> nl)
    by (intro E; apply (next_label_neq (day entry)); symmetry; exact E).
  rewrite !find_day_app, (find_day_cons_other nl entry post Hnl).
  destruct (find_day nl pre) as [en|] eqn:Fpre.
  - rewrite (extend_day_app_hit nl (t :: ts) pre (entry :: post) en Fpre).
    rewrite (extend_day_app_hit nl (t :: ts) pre post en Fpre).
    rewrite list_remove_first; [reflexivity|].
    apply find_day_None. rewrite extend_day_days.
    apply find_day_None. exact Hpre.
  - rewrite (extend_day_app_miss nl (t :: ts) pre (entry :: post) Fpre).
    destruct (find_day nl post) as [en|] eqn:Fpost.
    + rewrite (extend_day_app_miss nl (t :: ts) pre post Fpre).
      cbn [extend_day]. apply String.eqb_neq in Hnl. rewrite Hnl.
      rewrite list_remove_first by exact Hpre. reflexivity.
    + rewrite list_insert_after.
      rewrite list_remove_first by exact Hpre. reflexivity.
Qed.

(** A click on "Skip" runs the handler of the first entry with that label. *)
Lemma tasks_loop_skip d now st entry pre post :
  find_day d pre = None -> day entry = d ->
  forall i,
    tasks_loop (Some ("skip_" ++ d)) now st i (pre ++ entry :: post)
    = skip_entry st entry.
Proof.
  intros Hpre Hd. induction pre as [|en r IH]; intros i; cbn [tasks_loop app].
  - rewrite button_skip_complete, button_skip, andb_false_r, Hd.
    rewrite String.eqb_refl. reflexivity.
  - rewrite button_skip_complete, button_skip, andb_false_r.
    unfold find_day in Hpre. simpl in Hpre. rewrite String.eqb_sym.
    destruct (String.eqb (day en) d); [discriminate|].
    apply IH. exact Hpre.
Qed.

Lemma skip_spec (st : UserState) (entry : Entry) pre post :
  no_plan (plans st) = false ->
  progress st = (pre ++ entry :: post)%list ->
  find_day (day entry) pre = None ->
  tasks entry <> [] ->
  skip (day entry) st
  = (mkUserState (subjects st) (plans st) (carried entry pre post)
       (streaks st),
     Success ("Tasks moved from " ++ day entry ++ " to "
              ++ next_label (day entry) ++ ". Day skipped.")).
Proof.
  intros Hplan Hp Hpre Ht. unfold skip, page_tasks. rewrite Hplan.
  rewrite Hp at 1. rewrite tasks_loop_skip by (assumption || reflexivity).
  apply skip_entry_spec; assumption.
Qed.

(** ** Hours of a ledger *)

Lemma fold_Qplus_acc (l : list Q) (a : Q) :
  fold_left Qplus l a == a + fold_left Qplus l 0.
Proof.
  revert a. induction l as [|x r IH]; intros a; simpl; [lra|].
  rewrite (IH (a + x)), (IH (0 + x)). lra.
Qed.

Lemma sum_cons (x : Q) (l : list Q) : Py.sum (x :: l) == x + Py.sum l.
Proof. unfold Py.sum. simpl. rewrite fold_Qplus_acc. lra. Qed.

Lemma sum_app (a b : list Q) : Py.sum (a ++ b) == Py.sum a + Py.sum b.
Proof.
  induction a as [|x r IH]; simpl.
  - unfold Py.sum at 2. simpl. lra.
  - rewrite !sum_cons, IH. lra.
Qed.

Lemma tasks_hours_app (a b : list Task) :
  tasks_hours (a ++ b) == tasks_hours a + tasks_hours b.
Proof. unfold tasks_hours. rewrite map_app. apply sum_app. Qed.

Lemma ledger_hours_cons (en : Entry) (l : list Entry) :
  ledger_hours (en :: l) == tasks_hours (tasks en) + ledger_hours l.
Proof. unfold ledger_hours. simpl. apply sum_cons. Qed.

Lemma ledger_hours_app (a b : list Entry) :
  ledger_hours (a ++ b) == ledger_hours a + ledger_hours b.
Proof. unfold ledger_hours. rewrite map_app. apply sum_app. Qed.

Lemma ledger_hours_middle (en : Entry) (a b : list Entry) :
  ledger_hours (a ++ en :: b)
  == ledger_hours (a ++ b) + tasks_hours (tasks en).
Proof. rewrite !ledger_hours_app, ledger_hours_cons. lra. Qed.

Lemma ledger_hours_extend (d : string) extra (l : list Entry) en :
  find_day d l = Some en ->
  ledger_hours (extend_day d extra l) == ledger_hours l + tasks_hours extra.
Proof.
  unfold find_day. induction l as [|x r IH]; simpl; [discriminate|].
  destruct (String.eqb (day x) d).
  - intros _. rewrite !ledger_hours_cons. simpl.
    rewrite tasks_hours_app. lra.
  - intros H. rewrite !ledger_hours_cons, (IH H). lra.
Qed.

Lemma carried_hours (entry : Entry) (pre post : list Entry) :
  ledger_hours (carried entry pre post)
  == ledger_hours (pre ++ entry :: post).
Proof.
  unfold carried. rewrite (ledger_hours_middle entry pre post).
  destruct (find_day (next_label (day entry)) (pre ++ post)) as [en|] eqn:F.
  - apply (ledger_hours_extend _ _ _ en F).
  - rewrite ledger_hours_middle. simpl. lra.
Qed.

(** ** Tasks of a ledger *)

Lemma ledger_tasks_middle (en : Entry) (a b : list Entry) :
  Permutation (ledger_tasks (a ++ en :: b))
    (ledger_tasks (a ++ b) ++ tasks en).
Proof.
  unfold ledger_tasks. rewrite !flat_map_app. simpl.
  rewrite <- app_assoc. apply Permutation_app_head.
  apply Permutation_app_comm.
Qed.

Lemma ledger_tasks_extend (d : string) extra (l : list Entry) en :
  find_day d l = Some en ->
  Permutation (ledger_tasks (extend_day d extra l)) (ledger_tasks l ++ extra).
Proof.
  unfold find_day, ledger_tasks.
  induction l as [|x r IH]; simpl; [discriminate|].
  destruct (String.eqb (day x) d).
  - intros _. simpl. rewrite <- !app_assoc. apply Permutation_app_head.
    apply Permutation_app_comm.
  - intros H. simpl. rewrite <- app_assoc. apply Permutation_app_head.
    apply IH. exact H.
Qed.

Lemma carried_tasks (entry : Entry) (pre post : list Entry) :
  Permutation (ledger_tasks (carried entry pre post))
    (ledger_tasks (pre ++ entry :: post)).
Proof.
  unfold carried. rewrite (ledger_tasks_middle entry pre post).
  destruct (find_day (next_label (day entry)) (pre ++ post)) as [en|] eqn:F.
  - apply (ledger_tasks_extend _ _ _ en F).
  - rewrite ledger_tasks_middle. reflexivity.
Qed.

(** C4. Skipping a day whose entry has a task succeeds and leaves the
    total of the hours of the ledger unchanged: the tasks of the ledger are
    the same ones, rearranged. *)
Theorem C4_skip_conservation :
  forall st d entry,
    no_plan (plans st) = false ->
    find_day d (progress st) = Some entry ->
    tasks entry <> [] ->
    exists st' msg,
      skip d st = (st', Success msg)
      /\ ledger_hours (progress st') == ledger_hours (progress st)
      /\ Permutation (ledger_tasks (progress st'))
           (ledger_tasks (progress st)).
Proof.
  intros st d entry Hplan Hfind Ht.
  destruct (find_day_split d (progress st) entry Hfind)
    as (pre & post & Hp & Hpre & Hd).
  subst d. eexists. eexists. split; [|split].
  - apply (skip_spec st entry pre post); assumption.
  - simpl. rewrite Hp. apply carried_hours.
  - simpl. rewrite Hp. apply carried_tasks.
Qed.

Lemma C4_skip_conservation_witness :
  exists st' msg,
    skip "Day 1" two_days = (st', Success msg)
    /\ ledger_hours (progress st') == ledger_hours (progress two_days)
    /\ Permutation (ledger_tasks (progress st'))
         (ledger_tasks (progress two_days)).
Proof.
  apply (C4_skip_conservation two_days "Day 1"
           (mkEntry "Day 1" [mkTask "Math" 2 "Summarize key formulas"] false
              None)).
  - reflexivity.
  - reflexivity.
  - discriminate.
Defined.

(** ** Where the skipped tasks go *)

Lemma extend_day_at (d : string) extra (a b : list Entry) (nx : Entry) :
  find_day d a = None -> day nx = d ->
  extend_day d extra (a ++ nx :: b)
  = (a ++ mkEntry (day nx) (tasks nx ++ extra) (completed nx) (date nx)
       :: b)%list.
Proof.
  intros Ha Hd. rewrite (extend_day_app_miss d extra a (nx :: b) Ha).
  cbn [extend_day]. rewrite Hd, String.eqb_refl. reflexivity.
Qed.

(** C7. Skipping the entry of "Day N" that has a task: when the ledger has
    an entry "Day N+1", the first such entry keeps its tasks and receives
    the skipped tasks after them, in their order; otherwise a pending entry
    "Day N+1" with the skipped tasks takes the place after the skipped
    entry; in both cases the skipped entry leaves the ledger. *)
Theorem C7_skip_carry_forward :
  forall st pre entry post n,
    no_plan (plans st) = false ->
    progress st = (pre ++ entry :: post)%list ->
    day entry = day_label n ->
    find_day (day entry) pre = None ->
    tasks entry <> [] ->
    let ledger := progress (fst (skip (day entry) st)) in
    (forall a nx b,
        (pre ++ post)%list = (a ++ nx :: b)%list ->
        day nx = day_label (n + 1) ->
        find_day (day_label (n + 1)) a = None ->
        ledger
        = (a ++ mkEntry (day nx) (tasks nx ++ tasks entry) (completed nx)
                  (date nx) :: b)%list)
    /\ (find_day (day_label (n + 1)) (pre ++ post) = None ->
        ledger
        = (pre ++ mkEntry (day_label (n + 1)) (tasks entry) false None
             :: post)%list)
    /\ (find_day (day entry) post = None -> find_day (day entry) ledger = None).
Proof.
  intros st pre entry post n Hplan Hp Hd Hpre Ht ledger. subst ledger.
  rewrite (skip_spec st entry pre post Hplan Hp Hpre Ht). simpl.
  unfold carried. rewrite Hd, next_label_day_label.
  split; [|split].
  - intros a nx b Hsplit Hnx Ha. rewrite Hsplit.
    assert (F : find_day (day_label (n + 1)) (a ++ nx :: b) = Some nx).
    { rewrite find_day_app, Ha. unfold find_day. simpl.
      rewrite Hnx, String.eqb_refl. reflexivity. }
    rewrite F. apply extend_day_at; assumption.
  - intros Hnone. rewrite Hnone. reflexivity.
  - intros Hpost. rewrite Hd in Hpre.
    assert (Hrest : find_day (day_label n) (pre ++ post) = None)
      by (rewrite find_day_app, Hpre; exact Hpost).
    assert (Hneq : day_label (n + 1) <> day_label n).
    { intro E. apply day_label_inj in E. lia. }
    destruct (find_day (day_label (n + 1)) (pre ++ post)).
    + apply find_day_None. rewrite extend_day_days.
      apply find_day_None. exact Hrest.
    + rewrite find_day_app, Hpre. rewrite find_day_cons_other by exact Hneq.
      exact Hpost.
Qed.

Lemma C7_skip_carry_forward_witness :
  progress (fst (skip "Day 1" two_days))
  = [ mkEntry "Day 2"
        [ mkTask "History" 1 "Summarize key formulas";
          mkTask "Math" 2 "Summarize key formulas" ] false None ]
  /\ find_day "Day 1" (progress (fst (skip "Day 1" two_days))) = None.
Proof.
  destruct (C7_skip_carry_forward two_days []
              (mkEntry "Day 1" [mkTask "Math" 2 "Summarize key formulas"]
                 false None)
              [mkEntry "Day 2" [mkTask "History" 1 "Summarize key formulas"]
                 false None]
              1)
    as (Found & _ & Gone);
    try reflexivity; try discriminate.
  split.
  - apply (Found []
             (mkEntry "Day 2" [mkTask "History" 1 "Summarize key formulas"]
                false None) []); reflexivity.
  - apply Gone. reflexivity.
Defined.

(** * Further properties of the planner *)

(** ** The focus note *)

(** X1. The note picked for a subject is one of the six tips, whatever the
    name, the empty name included. *)
Theorem X1_focus_note_is_a_tip :
  forall subject_name, In (pick_focus_note subject_name) tips.
Proof.
  intros s. unfold pick_focus_note. apply nth_In.
  apply Nat.mod_upper_bound. discriminate.
Qed.

Lemma sum_ord_chars (s : string) :
  Py.sum_ord s = list_sum (map Py.ord (chars s)).
Proof.
  unfold chars. induction s as [|c r IH]; simpl; [|rewrite IH]; reflexivity.
Qed.

Lemma list_sum_perm (l l' : list nat) :
  Permutation l l' -> list_sum l = list_sum l'.
Proof. induction 1; simpl; lia. Qed.

(** X2. The note depends on the characters of the name and not on their
    order: two names that are anagrams of each other get the same note. *)
Theorem X2_focus_note_of_anagrams :
  forall a b,
    Permutation (chars a) (chars b) -> pick_focus_note a = pick_focus_note b.
Proof.
  intros a b H. unfold pick_focus_note.
  rewrite !sum_ord_chars.
  rewrite (list_sum_perm _ _ (Permutation_map Py.ord H)). reflexivity.
Qed.

Lemma X2_focus_note_of_anagrams_witness :
  pick_focus_note "Art" = pick_focus_note "rAt".
Proof.
  apply (X2_focus_note_of_anagrams "Art" "rAt").
  simpl. apply perm_trans with ["r"%char; "A"%char; "t"%char].
  - apply perm_swap.
  - apply Permutation_refl.
Defined.

(** ** Hours of the tasks of a plan *)

Lemma round2_hundredths (x : Q) : 0 < Py.round2 x -> hundredths (Py.round2 x).
Proof.
  unfold Py.round2. intros H. exists (Py.round_half_even (x * 100)).
  split; [|reflexivity].
  unfold Qlt in H. simpl in H. lia.
Qed.

Lemma hundredths_pos (q : Q) : hundredths q -> 1 # 100 <= q.
Proof.
  intros (k & Hk & ->). unfold Qle. simpl. lia.
Qed.

Lemma allocate_day_sum_inv (h : Q) (days d : Z) (order : list (string * Q)) :
  forall st, day_sum_inv h st -> day_sum_inv h (allocate_day days d order st).
Proof.
  induction order as [|[nm x] rest IH]; intros st Hst; simpl; [exact Hst|].
  destruct (Dict.get nm (subj_totals st)) as [total|]; [|auto].
  destruct (Qle_bool total (1 # 100)); [auto|].
  set (m := Py.min (remaining st)
              (Py.max (1 # 4) (total / inject_Z (Z.max 1 (days - d + 1))))).
  destruct (Qle_bool (Py.round2 m) 0) eqn:Ea; [auto|].
  apply Qle_bool_false in Ea.
  destruct Hst as (Hs & Hp).
  match goal with
  | |- day_sum_inv h (if _ then ?s else _) => assert (Hs' : day_sum_inv h s)
  end.
  { split; simpl.
    - rewrite tasks_hours_snoc. simpl. lra.
    - apply Forall_app. split; [exact Hp|].
      constructor; [apply round2_hundredths; exact Ea | constructor]. }
  match goal with
  | |- day_sum_inv h (if ?c then _ else _) => destruct c
  end; auto.
Qed.

Lemma close_day_filled (h : Q) (st : DayState) :
  day_sum_inv h st -> day_filled h (close_day st).
Proof.
  intros (Hs & Hp). unfold close_day, day_filled.
  destruct (Py.Qlt_bool (1 # 100) (remaining st)) eqn:E.
  - apply Qlt_bool_true in E.
    pose proof (round2_near (remaining st)) as Hr.
    split.
    + rewrite tasks_hours_snoc. simpl. lra.
    + apply Forall_app. split; [exact Hp|].
      constructor; [|constructor]. simpl.
      apply round2_hundredths. lra.
  - apply Qlt_bool_false in E. split; [lra | exact Hp].
Qed.

Lemma plan_loop_filled (h : Q) (days : Z) (order : list (string * Q)) ds :
  forall acc,
    Forall (fun kv => day_filled h (snd kv)) (fst acc) ->
    Forall (fun kv => day_filled h (snd kv))
      (fst (fold_left (plan_day h days order) ds acc)).
Proof.
  induction ds as [|d ds IH]; intros acc Hacc; simpl; [exact Hacc|].
  apply IH. unfold plan_day. simpl.
  apply Dict_set_Forall; [exact Hacc|].
  intros k'. simpl. apply close_day_filled, allocate_day_sum_inv.
  split; simpl; [|constructor].
  unfold tasks_hours, Py.sum. simpl. lra.
Qed.

Lemma positive_hours_hundredths (tasks : list Task) :
  Forall (fun t => hundredths (hours t)) tasks -> positive_hours tasks = tasks.
Proof.
  intros H. apply positive_hours_id.
  eapply Forall_impl; [|exact H].
  intros t Ht. apply hundredths_pos in Ht. lra.
Qed.

(** Every day of every plan, for all inputs. *)
Lemma plan_filled subjects h days exam now focus :
  Forall (fun kv => day_filled h (snd kv))
    (smart_generate_plan subjects h days exam now focus).
Proof.
  unfold smart_generate_plan. apply Forall_map. simpl.
  eapply Forall_impl; [|apply plan_loop_filled; constructor].
  intros kv H. simpl in *.
  rewrite positive_hours_hundredths by apply H. exact H.
Qed.

(** X3. In every generated plan, whatever the inputs, the hours of every
    task are a whole number of hundredths and at least 0.01. *)
Theorem X3_task_hours_are_positive_hundredths :
  forall subjects hours_per_day days exam_date now focus label tasks t,
    In (label, tasks)
       (smart_generate_plan subjects hours_per_day days exam_date now focus) ->
    In t tasks ->
    (exists k : Z, hours t = Qmake k 100) /\ 1 # 100 <= hours t.
Proof.
  intros subjects h days exam now focus label tasks t Hin Ht.
  pose proof (plan_filled subjects h days exam now focus) as Hall.
  rewrite Forall_forall in Hall. destruct (Hall _ Hin) as [_ Hp].
  simpl in Hp. rewrite Forall_forall in Hp. specialize (Hp _ Ht).
  split.
  - destruct Hp as (k & _ & E). exists k. exact E.
  - apply hundredths_pos. exact Hp.
Qed.

Lemma X3_task_hours_are_positive_hundredths_witness :
  (exists k : Z, 286 # 100 = Qmake k 100) /\ 1 # 100 <= 286 # 100.
Proof.
  apply (X3_task_hours_are_positive_hundredths math_history 4 1 None (at_time 0) None
           "Day 1"
           [ mkTask "Math" (286 # 100) (pick_focus_note "Math");
             mkTask "History" (114 # 100) (pick_focus_note "History") ]
           (mkTask "Math" (286 # 100) (pick_focus_note "Math"))).
  - vm_compute. left. reflexivity.
  - left. reflexivity.
Defined.



Lemma tasks_hours_nil : tasks_hours [] == 0.
Proof. unfold tasks_hours, Py.sum. simpl. lra. Qed.

(** X5. With more than 0.01 hours a day, no day of a generated plan is
    empty. *)
Theorem X5_no_empty_day :
  forall subjects hours_per_day days exam_date now focus label tasks,
    1 # 100 < hours_per_day ->
    In (label, tasks)
       (smart_generate_plan subjects hours_per_day days exam_date now focus) ->
    tasks <> [].
Proof.
  intros subjects h days exam now focus label tasks Hh Hin E.
  pose proof (plan_filled subjects h days exam now focus) as Hall.
  rewrite Forall_forall in Hall. destruct (Hall _ Hin) as [Hs _].
  simpl in Hs. rewrite E, tasks_hours_nil in Hs. lra.
Qed.

Lemma X5_no_empty_day_witness :
  [ mkTask "Math" (286 # 100) (pick_focus_note "Math");
    mkTask "History" (114 # 100) (pick_focus_note "History") ] <> [].
Proof.
  apply (X5_no_empty_day math_history 4 1 None (at_time 0) None "Day 1").
  - reflexivity.
  - vm_compute. left. reflexivity.
Defined.

(** ** The order of the subjects *)

Lemma Dict_set_keys_in {V} (k x : string) (v : V) (d : Dict.t V) :
  In x (Dict.keys (Dict.set k v d)) <-> x = k \/ In x (Dict.keys d).
Proof.
  induction d as [|[k' v'] r IH]; simpl.
  - intuition.
  - destruct (String.eqb k k') eqn:E; simpl.
    + apply String.eqb_eq in E. subst. intuition.
    + rewrite IH. intuition.
Qed.

Lemma Dict_set_keys_NoDup {V} (k : string) (v : V) (d : Dict.t V) :
  NoDup (Dict.keys d) -> NoDup (Dict.keys (Dict.set k v d)).
Proof.
  induction d as [|[k' v'] r IH]; simpl; intros H.
  - constructor; [intros [] | constructor].
  - inversion H as [|a l Hn Hr]; subst.
    destruct (String.eqb k k') eqn:E; simpl.
    + constructor; assumption.
    + constructor; [|apply IH; exact Hr].
      intros Hin. apply Dict_set_keys_in in Hin. destruct Hin as [->|Hin].
      * rewrite String.eqb_refl in E. discriminate.
      * contradiction.
Qed.

Lemma subj_totals_fold (total_score total_hours : Q) scores :
  forall acc,
    NoDup (Dict.keys acc) ->
    Forall (fun nt => 1 # 2 <= snd nt) acc ->
    let d :=
      fold_left
        (fun d ns =>
           Dict.set (fst ns)
             (Py.max (1 # 2)
                (Py.round2 ((snd ns / total_score) * total_hours))) d)
        scores acc in
    NoDup (Dict.keys d)
    /\ Forall (fun nt => 1 # 2 <= snd nt) d
    /\ forall nm, In nm (Dict.keys d)
                  <-> In nm (Dict.keys acc) \/ In nm (map fst scores).
Proof.
  induction scores as [|[n s] scores IH]; intros acc Hnd Hge; simpl.
  - repeat split; auto. intros [H|[]]. exact H.
  - match goal with
    | |- context [fold_left ?f scores ?a] =>
        destruct (IH a) as (H1 & H2 & H3)
    end.
    + apply Dict_set_keys_NoDup. exact Hnd.
    + apply Dict_set_Forall; [exact Hge|]. intros k'. simpl.
      unfold Py.max.
      match goal with |- context [Py.Qlt_bool ?a ?b] =>
        destruct (Py.Qlt_bool a b) eqn:E end.
      * apply Qlt_bool_true in E. lra.
      * lra.
    + repeat split; auto.
      * intros H. apply H3 in H. rewrite Dict_set_keys_in in H. intuition.
      * intros H. apply H3. rewrite Dict_set_keys_in. intuition.
Qed.

Lemma sorted_insert_perm (x : string * Q) (l : list (string * Q)) :
  Permutation (sorted_insert x l) (x :: l).
Proof.
  induction l as [|y r IH]; simpl; [reflexivity|].
  destruct (Py.Qlt_bool (- snd y) (- snd x)); [|reflexivity].
  rewrite IH. apply perm_swap.
Qed.

Lemma sorted_desc_perm (l : list (string * Q)) :
  Permutation (sorted_desc l) l.
Proof.
  induction l as [|x r IH]; simpl; [reflexivity|].
  rewrite sorted_insert_perm. constructor. exact IH.
Qed.

Lemma sorted_insert_sorted (x : string * Q) (l : list (string * Q)) :
  StronglySorted (fun a b => snd b <= snd a) l ->
  StronglySorted (fun a b => snd b <= snd a) (sorted_insert x l).
Proof.
  induction 1 as [|y r Hr IH Hy]; simpl.
  - constructor; constructor.
  - destruct (Py.Qlt_bool (- snd y) (- snd x)) eqn:E.
    + apply Qlt_bool_true in E. constructor; [exact IH|].
      apply (Permutation_Forall (Permutation_sym (sorted_insert_perm x r))).
      constructor; [lra | exact Hy].
    + apply Qlt_bool_false in E. constructor.
      * constructor; assumption.
      * constructor; [lra|].
        eapply Forall_impl; [|exact Hy]. simpl. intros z Hz. lra.
Qed.

Lemma sorted_desc_sorted (l : list (string * Q)) :
  StronglySorted (fun a b => snd b <= snd a) (sorted_desc l).
Proof.
  induction l as [|x r IH]; simpl; [constructor|].
  apply sorted_insert_sorted. exact IH.
Qed.

Lemma scores_of_names subjects exam utcnow focus :
  map fst (scores_of subjects exam utcnow focus) = map name subjects.
Proof.
  unfold scores_of. generalize 0%nat.
  induction subjects as [|s r IH]; intros i; simpl; [|rewrite IH];
    reflexivity.
Qed.

(** X6. The order in which the subjects are served: every name of the input
    once, by descending total, each total at least half an hour. *)
Theorem X6_subject_order :
  forall subjects hours_per_day days exam_date now focus,
    let order :=
      subject_order_of subjects hours_per_day days exam_date now focus in
    NoDup (map fst order)
    /\ (forall nm, In nm (map fst order) <-> In nm (map name subjects))
    /\ StronglySorted (fun a b => snd b <= snd a) order
    /\ Forall (fun nt => 1 # 2 <= snd nt) order.
Proof.
  intros subjects h days exam now focus order. subst order.
  unfold subject_order_of.
  set (scores := scores_of subjects exam now focus).
  destruct (subj_totals_fold (total_score_of scores) (h * inject_Z days)
              scores [] (NoDup_nil _) (Forall_nil _)) as (H1 & H2 & H3).
  fold (subj_totals_of scores (total_score_of scores) (h * inject_Z days))
    in H1, H2, H3.
  set (totals := subj_totals_of scores (total_score_of scores)
                   (h * inject_Z days)) in *.
  pose proof (sorted_desc_perm totals) as P.
  repeat split.
  - apply (Permutation_NoDup (Permutation_sym (Permutation_map fst P))).
    exact H1.
  - intros H.
    apply (Permutation_in _ (Permutation_map fst P)) in H.
    apply H3 in H. destruct H as [[]|H].
    unfold scores in H. rewrite scores_of_names in H. exact H.
  - intros H.
    apply (Permutation_in _ (Permutation_sym (Permutation_map fst P))).
    apply H3. right. unfold scores. rewrite scores_of_names. exact H.
  - apply sorted_desc_sorted.
  - apply (Permutation_Forall (Permutation_sym P)). exact H2.
Qed.

(** ** The shape of a day *)

Lemma subseq_refl {A} (l : list A) : subseq l l.
Proof. induction l; constructor; assumption. Qed.

Lemma subseq_incl {A} (l l' : list A) : subseq l l' -> incl l l'.
Proof.
  induction 1 as [l'|x l l' H IH|x l l' H IH]; intros y Hy.
  - destruct Hy.
  - destruct Hy as [->|Hy]; [left; reflexivity | right; apply IH, Hy].
  - right. apply IH, Hy.
Qed.

Lemma subseq_NoDup {A} (l l' : list A) : subseq l l' -> NoDup l' -> NoDup l.
Proof.
  induction 1 as [l'|x l l' H IH|x l l' H IH]; intros Hnd.
  - constructor.
  - inversion Hnd as [|a r Hn Hr]; subst. constructor; [|apply IH, Hr].
    intros Hin. apply Hn. apply (subseq_incl _ _ H). exact Hin.
  - inversion Hnd; subst. apply IH. assumption.
Qed.

(** The tasks that the inner loop adds follow the order of the subjects. *)
Lemma allocate_day_subseq (days d : Z) (order : list (string * Q)) :
  forall st,
    exists added,
      day_tasks (allocate_day days d order st)
      = (day_tasks st ++ added)%list
      /\ subseq (map subject added) (map fst order).
Proof.
  induction order as [|[nm x] rest IH]; intros st; simpl.
  - exists []. rewrite app_nil_r. split; [reflexivity | constructor].
  - assert (Skip : exists added,
               day_tasks (allocate_day days d rest st)
               = (day_tasks st ++ added)%list
               /\ subseq (map subject added) (nm :: map fst rest)).
    { destruct (IH st) as (added & E & S). exists added.
      split; [exact E | constructor; exact S]. }
    destruct (Dict.get nm (subj_totals st)) as [total|]; [|exact Skip].
    destruct (Qle_bool total (1 # 100)); [exact Skip|].
    match goal with
    | |- context [Qle_bool (Py.round2 ?m) 0] =>
        destruct (Qle_bool (Py.round2 m) 0); [exact Skip|]
    end.
    match goal with
    | |- context [if ?c then ?s else _] => destruct c; [|destruct (IH s)
        as (added & E & S)]
    end.
    + eexists [_]. simpl. split; [reflexivity|].
      constructor. constructor.
    + eexists (_ :: added). rewrite E. simpl.
      rewrite <- app_assoc. simpl. split; [reflexivity|].
      constructor. exact S.
Qed.

Lemma close_day_shape (order : list (string * Q)) (st : DayState) added :
  day_tasks st = added ->
  subseq (map subject added) (map fst order) ->
  day_shape order (close_day st).
Proof.
  intros E S. unfold close_day, day_shape.
  destruct (Py.Qlt_bool (1 # 100) (remaining st)) eqn:Er.
  - apply Qlt_bool_true in Er. exists added, [review_task (remaining st)].
    rewrite E. repeat split; auto. right. exists (remaining st). auto.
  - exists added, []. rewrite E, app_nil_r. repeat split; auto.
Qed.

Lemma plan_loop_shape (h : Q) (days : Z) (order : list (string * Q)) ds :
  forall acc,
    Forall (fun kv => day_shape order (snd kv)) (fst acc) ->
    Forall (fun kv => day_shape order (snd kv))
      (fst (fold_left (plan_day h days order) ds acc)).
Proof.
  induction ds as [|d ds IH]; intros acc Hacc; simpl; [exact Hacc|].
  apply IH. unfold plan_day. simpl.
  apply Dict_set_Forall; [exact Hacc|].
  intros k'. simpl.
  destruct (allocate_day_subseq days d order (mkDayState [] h (snd acc)))
    as (added & E & S).
  simpl in E. apply (close_day_shape order _ added E S).
Qed.

(** X7. A day of a generated plan consists of tasks of input subjects, at
    most one per subject and in the order in which the subjects are served,
    followed by at most one closing "Review & Breaks" task. *)
Theorem X7_shape_of_a_day :
  forall subjects hours_per_day days exam_date now focus label tasks,
    In (label, tasks)
       (smart_generate_plan subjects hours_per_day days exam_date now focus) ->
    exists base closing,
      tasks = (base ++ closing)%list
      /\ subseq (map subject base)
           (map fst
              (subject_order_of subjects hours_per_day days exam_date now
                 focus))
      /\ NoDup (map subject base)
      /\ (forall t, In t base -> In (subject t) (map name subjects))
      /\ (closing = []
          \/ exists r, 1 # 100 < r /\ closing = [review_task r]).
Proof.
  intros subjects h days exam now focus label tasks Hin.
  unfold smart_generate_plan in Hin.
  apply in_map_iff in Hin. destruct Hin as ([k v] & Heq & Hin).
  simpl in Heq. injection Heq as _ <-.
  fold (subject_order_of subjects h days exam now focus) in Hin.
  set (order := subject_order_of subjects h days exam now focus) in *.
  match type of Hin with
  | In _ (fst (fold_left _ ?ds ?acc)) =>
      pose proof (plan_loop_shape h days order ds acc (Forall_nil _)) as Hsh;
      pose proof (plan_loop_filled h days order ds acc (Forall_nil _)) as Hfi
  end.
  rewrite Forall_forall in Hsh, Hfi.
  specialize (Hsh _ Hin). specialize (Hfi _ Hin). simpl in Hsh, Hfi.
  rewrite positive_hours_hundredths by apply Hfi.
  destruct Hsh as (base & closing & E & S & C).
  destruct (subj_totals_fold
              (total_score_of (scores_of subjects exam now focus))
              (h * inject_Z days)
              (scores_of subjects exam now focus) []
              (NoDup_nil _) (Forall_nil _)) as (H1 & _ & H3).
  pose proof (sorted_desc_perm
                (subj_totals_of (scores_of subjects exam now focus)
                   (total_score_of (scores_of subjects exam now focus))
                   (h * inject_Z days))) as P.
  exists base, closing. repeat split; auto.
  - apply (subseq_NoDup _ _ S).
    apply (Permutation_NoDup (Permutation_sym (Permutation_map fst P))).
    exact H1.
  - intros t Ht.
    assert (Hs : In (subject t) (map fst order))
      by (apply (subseq_incl _ _ S), in_map, Ht).
    apply (Permutation_in _ (Permutation_map fst P)) in Hs.
    apply H3 in Hs. destruct Hs as [[]|Hs].
    rewrite scores_of_names in Hs. exact Hs.
Qed.

Lemma X7_shape_of_a_day_witness :
  exists base closing,
    [ mkTask "Math" (286 # 100) (pick_focus_note "Math");
      mkTask "History" (114 # 100) (pick_focus_note "History") ]
    = (base ++ closing)%list
    /\ subseq (map subject base)
         (map fst (subject_order_of math_history 4 1 None (at_time 0) None))
    /\ NoDup (map subject base)
    /\ (forall t, In t base -> In (subject t) (map name math_history))
    /\ (closing = []
        \/ exists r, 1 # 100 < r /\ closing = [review_task r]).
Proof.
  apply (X7_shape_of_a_day math_history 4 1 None (at_time 0) None "Day 1").
  vm_compute. left. reflexivity.
Defined.

(** ** No subjects *)

Lemma plan_loop_no_subjects (h : Q) (days : Z) ds :
  1 # 100 < h ->
  NoDup ds ->
  forall acc,
    (forall d, In d ds -> ~ In (day_label d) (Dict.keys (fst acc))) ->
    fst (fold_left (plan_day h days []) ds acc)
    = (fst acc ++ map (fun d => (day_label d, [review_task h])) ds)%list.
Proof.
  intros Hh. induction 1 as [|d ds Hd Hnd IH]; intros acc Hfresh;
    cbn [fold_left map].
  - rewrite app_nil_r. reflexivity.
  - assert (Hstep : fst (plan_day h days [] acc d)
                    = (fst acc ++ [(day_label d, [review_task h])])%list).
    { unfold plan_day, close_day. simpl.
      apply Qlt_bool_true in Hh. rewrite Hh.
      apply Dict_set_fresh. apply Hfresh. left. reflexivity. }
    unfold Plan in *. rewrite IH.
    + rewrite Hstep, <- app_assoc. reflexivity.
    + intros d' Hd'. rewrite Hstep. unfold Dict.keys.
      rewrite map_app, in_app_iff. simpl. intros [Hin|[Heq|[]]].
      * revert Hin. apply Hfresh. right. exact Hd'.
      * apply day_label_inj in Heq. subst. contradiction.
Qed.

(** X8. For an empty subject list and more than 0.01 hours a day, every
    day of the plan holds the closing task alone, with the whole budget. *)
Theorem X8_plan_without_subjects :
  forall hours_per_day days exam_date now focus,
    1 # 100 < hours_per_day ->
    smart_generate_plan [] hours_per_day days exam_date now focus
    = map (fun d => (day_label d, [review_task hours_per_day]))
        (day_range days).
Proof.
  intros h days exam now focus Hh. unfold smart_generate_plan. simpl.
  rewrite plan_loop_no_subjects;
    [| exact Hh | apply day_range_NoDup | intros d _ []].
  simpl. rewrite map_map. apply map_ext. intros d. simpl.
  pose proof (round2_near h) as Hr.
  replace (Py.Qlt_bool 0 (Py.round2 h)) with true; [reflexivity|].
  symmetry. apply Qlt_bool_true. lra.
Qed.

Lemma X8_plan_without_subjects_witness :
  smart_generate_plan [] 4 2 None (at_time 0) None
  = map (fun d => (day_label d, [review_task 4])) (day_range 2).
Proof.
  apply (X8_plan_without_subjects 4 2 None (at_time 0) None). reflexivity.
Defined.

(** * Further properties of the ledger *)

(** ** Completing a pending day *)

(** X9. Completing a day that has a pending entry succeeds: the first
    pending entry with that label is marked Completed and stamped, its
    tasks and all other entries stay as they are, and the streak grows. *)
Theorem X9_complete_pending_day :
  forall st d now entry pre post,
    no_plan (plans st) = false ->
    progress st = (pre ++ entry :: post)%list ->
    all_completed d pre = true -> day entry = d -> completed entry = false ->
    complete d now st
    = (mkUserState (subjects st) (plans st)
         (pre ++ mkEntry d (tasks entry) true (Some now) :: post)
         (mkStreak (current (streaks st) + 1)
            (Z.max (best (streaks st)) (current (streaks st) + 1))),
       Success (d ++ " marked complete. Your streak is now "
                ++ Py.str (current (streaks st) + 1) ++ " days!")).
Proof.
  intros st d now entry pre post. apply complete_spec.
Qed.

Lemma X9_complete_pending_day_witness :
  complete "Day 2" "2024-05-02T09:00:00" two_days
  = (mkUserState math_history (plans two_days)
       [ mkEntry "Day 1" [mkTask "Math" 2 "Summarize key formulas"] false None;
         mkEntry "Day 2" [mkTask "History" 1 "Summarize key formulas"] true
           (Some "2024-05-02T09:00:00") ]
       (mkStreak 1 1),
     Success "Day 2 marked complete. Your streak is now 1 days!").
Proof.
  apply (X9_complete_pending_day two_days "Day 2" "2024-05-02T09:00:00"
           (mkEntry "Day 2" [mkTask "History" 1 "Summarize key formulas"]
              false None)
           [mkEntry "Day 1" [mkTask "Math" 2 "Summarize key formulas"] false
              None]
           []);
    reflexivity.
Defined.

(** A completion either changes nothing or marks one entry of the ledger. *)
Lemma complete_effect d now st :
  fst (complete d now st) = st
  \/ exists pre entry post,
       progress st = (pre ++ entry :: post)%list
       /\ progress (fst (complete d now st))
          = (pre ++ mkEntry (day entry) (tasks entry) true (Some now)
               :: post)%list
       /\ plans (fst (complete d now st)) = plans st
       /\ subjects (fst (complete d now st)) = subjects st.
Proof.
  destruct (complete_cases d now st) as [E|[E|(j & en & E)]];
    try (left; rewrite E; reflexivity).
  right.
  assert (Hs : complete d now st
               = (fst (mark_complete st j en now),
                  snd (mark_complete st j en now)))
    by (rewrite E; reflexivity).
  unfold mark_complete in Hs at 2. simpl in Hs.
  pose proof Hs as Hs'.
  unfold complete, page_tasks in Hs'.
  destruct (no_plan (plans st)); [discriminate|].
  destruct (tasks_loop_complete_success d now st _ _ (progress st) []
              eq_refl Hs') as (pre & entry & post & Hp & Hd & Hp1 & _).
  exists pre, entry, post. rewrite E. simpl in *.
  repeat split; auto.
Qed.

(** X10. A completion never changes the labels, the tasks or the number of
    the entries of the ledger, nor the plan. *)
Theorem X10_complete_keeps_days_and_tasks :
  forall st d now,
    map day (progress (fst (complete d now st))) = map day (progress st)
    /\ map tasks (progress (fst (complete d now st)))
       = map tasks (progress st)
    /\ plans (fst (complete d now st)) = plans st.
Proof.
  intros st d now.
  destruct (complete_effect d now st)
    as [E|(pre & entry & post & Hp & Hp1 & Hpl & _)].
  - rewrite E. repeat split.
  - rewrite Hp1, Hp, Hpl, !map_app. simpl. repeat split.
Qed.

(** ** Skips that change nothing *)

Lemma tasks_loop_skip_absent d now st entries :
  find_day d entries = None ->
  forall i,
    tasks_loop (Some ("skip_" ++ d)) now st i entries = (st, Rendered).
Proof.
  induction entries as [|en r IH]; intros H i; cbn [tasks_loop];
    [reflexivity|].
  unfold find_day in H. simpl in H.
  rewrite button_skip_complete, button_skip, andb_false_r, String.eqb_sym.
  destruct (String.eqb (day en) d); [discriminate|].
  apply IH. exact H.
Qed.

(** What a skip does, case by case. *)
Lemma skip_cases d st :
  (exists o, skip d st = (st, o)
             /\ (o = Rendered \/ (exists m, o = Info m)
                 \/ exists m, o = Warning m))
  \/ exists pre entry post,
       progress st = (pre ++ entry :: post)%list
       /\ find_day d pre = None /\ day entry = d /\ tasks entry <> []
       /\ skip d st
          = (mkUserState (subjects st) (plans st) (carried entry pre post)
               (streaks st),
             Success ("Tasks moved from " ++ d ++ " to "
                      ++ next_label d ++ ". Day skipped.")).
Proof.
  destruct (no_plan (plans st)) eqn:Hplan.
  { left. eexists. unfold skip, page_tasks. rewrite Hplan.
    split; [reflexivity|]. right. left. eexists. reflexivity. }
  destruct (find_day d (progress st)) as [entry|] eqn:F.
  - destruct (find_day_split d _ entry F) as (pre & post & Hp & Hpre & Hd).
    destruct (tasks entry) as [|t ts] eqn:Et.
    + left. eexists. unfold skip, page_tasks. rewrite Hplan.
      rewrite Hp at 1.
      rewrite (tasks_loop_skip d "" st entry pre post Hpre Hd).
      unfold skip_entry. rewrite Et. split; [reflexivity|].
      right. right. eexists. reflexivity.
    + right. exists pre, entry, post. subst d.
      repeat split; auto; [congruence|].
      apply skip_spec; auto. congruence.
  - left. eexists. unfold skip, page_tasks. rewrite Hplan.
    rewrite tasks_loop_skip_absent by exact F.
    split; [reflexivity|]. left. reflexivity.
Qed.

(** X11. Skipping a label that no entry carries runs no handler and
    changes nothing. *)
Theorem X11_skip_absent_day :
  forall st d,
    no_plan (plans st) = false ->
    find_day d (progress st) = None ->
    skip d st = (st, Rendered).
Proof.
  intros st d Hplan F. unfold skip, page_tasks. rewrite Hplan.
  apply tasks_loop_skip_absent. exact F.
Qed.

Lemma X11_skip_absent_day_witness :
  skip "Day 7" two_days = (two_days, Rendered).
Proof.
  apply (X11_skip_absent_day two_days "Day 7"); reflexivity.
Defined.

(** X12. Skipping a day whose first entry has no tasks is refused with a
    warning, and nothing changes. *)
Theorem X12_skip_day_without_tasks :
  forall st d entry,
    no_plan (plans st) = false ->
    find_day d (progress st) = Some entry ->
    tasks entry = [] ->
    skip d st = (st, Warning "This day has no tasks to skip.").
Proof.
  intros st d entry Hplan F Et.
  destruct (find_day_split d _ entry F) as (pre & post & Hp & Hpre & Hd).
  unfold skip, page_tasks. rewrite Hplan. rewrite Hp at 1.
  rewrite (tasks_loop_skip d "" st entry pre post Hpre Hd).
  unfold skip_entry. rewrite Et. reflexivity.
Qed.

Lemma X12_skip_day_without_tasks_witness :
  skip "Day 1"
    (mkUserState math_history (Some [("Day 1", [])])
       [mkEntry "Day 1" [] false None] (mkStreak 0 0))
  = (mkUserState math_history (Some [("Day 1", [])])
       [mkEntry "Day 1" [] false None] (mkStreak 0 0),
     Warning "This day has no tasks to skip.").
Proof.
  apply (X12_skip_day_without_tasks
           (mkUserState math_history (Some [("Day 1", [])])
              [mkEntry "Day 1" [] false None] (mkStreak 0 0))
           "Day 1" (mkEntry "Day 1" [] false None));
    reflexivity.
Defined.

(** ** What a skip keeps *)

Lemma NoDup_insert_middle {A} (a : A) (l l' : list A) :
  NoDup (l ++ l') -> ~ In a (l ++ l') -> NoDup (l ++ a :: l').
Proof.
  intros Hnd Hin.
  apply (Permutation_NoDup (Permutation_middle l l' a)).
  constructor; assumption.
Qed.

Lemma carried_days_NoDup (entry : Entry) (pre post : list Entry) :
  NoDup (map day (pre ++ entry :: post)) ->
  NoDup (map day (carried entry pre post)).
Proof.
  intros H. rewrite map_app in H. simpl in H.
  apply NoDup_remove_1 in H. rewrite <- map_app in H.
  unfold carried.
  destruct (find_day (next_label (day entry)) (pre ++ post)) eqn:F.
  - rewrite extend_day_days. exact H.
  - rewrite map_app. simpl. apply NoDup_insert_middle.
    + rewrite <- map_app. exact H.
    + rewrite <- map_app. apply find_day_None. exact F.
Qed.

(** X13. A skip keeps the labels of the ledger distinct. *)
Theorem X13_skip_keeps_labels_distinct :
  forall st d,
    NoDup (map day (progress st)) ->
    NoDup (map day (progress (fst (skip d st)))).
Proof.
  intros st d H.
  destruct (skip_cases d st)
    as [(o & E & _)|(pre & entry & post & Hp & _ & _ & _ & E)];
    rewrite E; simpl; [exact H|].
  apply carried_days_NoDup. rewrite <- Hp. exact H.
Qed.

Lemma X13_skip_keeps_labels_distinct_witness :
  NoDup (map day (progress (fst (skip "Day 2" two_days)))).
Proof.
  apply (X13_skip_keeps_labels_distinct two_days "Day 2").
  repeat constructor; simpl; intuition discriminate.
Defined.

Lemma extend_day_length (d : string) extra (l : list Entry) :
  List.length (extend_day d extra l) = List.length l.
Proof.
  rewrite <- (length_map day), extend_day_days, length_map. reflexivity.
Qed.

(** X14. A skip never adds an entry to the ledger, and it leaves the plan,
    the subjects and the streak as they are. *)
Theorem X14_skip_keeps_plan_and_streak :
  forall st d,
    (List.length (progress (fst (skip d st)))
     <= List.length (progress st))%nat
    /\ plans (fst (skip d st)) = plans st
    /\ subjects (fst (skip d st)) = subjects st
    /\ streaks (fst (skip d st)) = streaks st.
Proof.
  intros st d.
  destruct (skip_cases d st)
    as [(o & E & _)|(pre & entry & post & Hp & _ & _ & _ & E)];
    rewrite E; simpl; [repeat split; lia|].
  repeat split. rewrite Hp. unfold carried.
  destruct (find_day (next_label (day entry)) (pre ++ post)).
  - rewrite extend_day_length, !length_app. simpl. lia.
  - rewrite !length_app. simpl. lia.
Qed.

(** * Generation, regeneration and the ledger *)


Lemma day_range_In (days k : Z) :
  (1 <= k <= days)%Z -> In k (day_range days).
Proof.
  intros H. unfold day_range. apply in_map_iff.
  exists (Z.to_nat (k - 1)). split; [lia|].
  apply in_seq. lia.
Qed.

(** The entry of "Day k" in the ledger of a generated plan. *)
Lemma generated_day subjects h days exam now focus k :
  (1 <= k <= days)%Z ->
  exists p1 ts p2,
    smart_generate_plan subjects h days exam now focus
    = (p1 ++ (day_label k, ts) :: p2)%list
    /\ ~ In (day_label k) (map day (ledger_of p1)).
Proof.
  intros Hk.
  set (plan := smart_generate_plan subjects h days exam now focus).
  assert (Hin : In (day_label k) (Dict.keys plan)).
  { unfold plan. rewrite plan_keys. apply in_map, day_range_In, Hk. }
  unfold Dict.keys in Hin. apply in_map_iff in Hin.
  destruct Hin as ([l ts] & El & Hin). simpl in El. subst l.
  apply in_split in Hin. destruct Hin as (p1 & p2 & E).
  exists p1, ts, p2. split; [exact E|].
  assert (Hnd : NoDup (Dict.keys plan)).
  { unfold plan. rewrite plan_keys. apply Injective_map_NoDup.
    - intros a b. apply day_label_inj.
    - apply day_range_NoDup. }
  rewrite E in Hnd. unfold Dict.keys in Hnd. rewrite map_app in Hnd.
  simpl in Hnd. apply NoDup_remove_2 in Hnd.
  unfold ledger_of. rewrite map_map. simpl.
  intros Hin. apply Hnd, in_or_app. left. exact Hin.
Qed.

Lemma ledger_of_app (a b : Plan) :
  ledger_of (a ++ b)%list = (ledger_of a ++ ledger_of b)%list.
Proof. unfold ledger_of. apply map_app. Qed.

(** X15. After a schedule is generated for [days] days, completing
    "Day k" succeeds for every k from 1 to [days] and adds one to the
    streak that the user had before the generation. *)
Theorem X15_complete_after_generate :
  forall st hours_per_day days exam_dt now priority k now_iso,
    subjects st <> [] -> (1 <= k <= days)%Z ->
    let st1 :=
      fst (generate_schedule st hours_per_day days exam_dt now priority) in
    snd (complete (day_label k) now_iso st1)
    = Success (day_label k ++ " marked complete. Your streak is now "
               ++ Py.str (current (streaks st) + 1) ++ " days!")
    /\ current (streaks (fst (complete (day_label k) now_iso st1)))
       = (current (streaks st) + 1)%Z.
Proof.
  intros st h days exam now priority k now_iso Hs Hk st1. subst st1.
  unfold generate_schedule.
  destruct (subjects st) as [|s subs] eqn:Es; [congruence|]. clear Hs.
  destruct (generated_day (s :: subs) h days exam now (Some priority) k Hk)
    as (p1 & ts & p2 & E & Hfresh).
  cbn [fst].
  rewrite (complete_spec _ (day_label k) now_iso
             (mkEntry (day_label k) ts false None)
             (ledger_of p1) (ledger_of p2)).
  - split; reflexivity.
  - simpl. rewrite E. destruct p1; reflexivity.
  - simpl. rewrite E, ledger_of_app. reflexivity.
  - apply all_completed_other. exact Hfresh.
  - reflexivity.
  - reflexivity.
Qed.

Lemma X15_complete_after_generate_witness :
  snd (complete (day_label 2) "2024-05-02T09:00:00"
         (fst (generate_schedule two_days 4 2 None (at_time 0) [])))
  = Success (day_label 2 ++ " marked complete. Your streak is now "
             ++ Py.str (0 + 1) ++ " days!")
  /\ current
       (streaks
          (fst (complete (day_label 2) "2024-05-02T09:00:00"
                  (fst (generate_schedule two_days 4 2 None (at_time 0) [])))))
     = (0 + 1)%Z.
Proof.
  apply (X15_complete_after_generate two_days 4 2 None (at_time 0) [] 2
           "2024-05-02T09:00:00").
  - discriminate.
  - lia.
Defined.

Lemma day_filled_nonempty (h : Q) (tasks : list Task) :
  1 # 100 < h -> day_filled h tasks -> tasks <> [].
Proof.
  intros Hh [Hs _] E. rewrite E, tasks_hours_nil in Hs. lra.
Qed.

Lemma seq_split (s1 : list nat) :
  forall a n i s2,
    seq a n = (s1 ++ i :: s2)%list ->
    (s2 = [] /\ (a + n)%nat = S i) \/ exists s3, s2 = S i :: s3.
Proof.
  induction s1 as [|x s1 IH]; intros a n i s2 H.
  - destruct n as [|n]; [discriminate|]. simpl in H.
    injection H as <- H. destruct n as [|n]; simpl in H.
    + left. split; [symmetry; exact H | lia].
    + right. destruct s2 as [|y s3]; [discriminate|].
      injection H as <- _. exists s3. reflexivity.
  - destruct n as [|n]; [discriminate|]. simpl in H.
    injection H as _ H. destruct (IH _ _ _ _ H) as [[E1 E2]|E].
    + left. split; [exact E1 | lia].
    + right. exact E.
Qed.

Lemma day_range_bounds (days x : Z) :
  In x (day_range days) -> (1 <= x <= days)%Z.
Proof.
  unfold day_range. intros H. apply in_map_iff in H.
  destruct H as (i & <- & Hi). apply in_seq in Hi. lia.
Qed.

(** The days of a range follow each other. *)
Lemma day_range_split (days k : Z) (r1 r2 : list Z) :
  day_range days = (r1 ++ k :: r2)%list ->
  (r2 = [] /\ k = days) \/ exists r3, r2 = (k + 1)%Z :: r3.
Proof.
  intros H.
  assert (Hk : (1 <= k <= days)%Z).
  { apply day_range_bounds. rewrite H. apply in_elt. }
  unfold day_range in H.
  apply map_eq_app in H. destruct H as (s1 & s2' & Hs & _ & H2).
  apply map_eq_cons in H2. destruct H2 as (i & s2 & -> & Hi & H2).
  destruct (seq_split s1 _ _ _ _ Hs) as [[E1 E2]|(s3 & E)].
  - left. subst s2. cbn [map] in H2. split; [symmetry; exact H2 | lia].
  - right. subst s2. cbn [map] in H2.
    exists (map (fun i => (1 + Z.of_nat i)%Z) s3).
    rewrite <- H2. f_equal. rewrite Nat2Z.inj_succ. lia.
Qed.

(** The entry of "Day k" in a generated plan and what follows it. *)
Lemma generated_day_next subjects h days exam now focus k :
  (1 <= k <= days)%Z ->
  exists p1 ts p2,
    smart_generate_plan subjects h days exam now focus
    = (p1 ++ (day_label k, ts) :: p2)%list
    /\ ~ In (day_label k) (map day (ledger_of p1))
    /\ ~ In (day_label (k + 1)) (map day (ledger_of p1))
    /\ ((p2 = [] /\ k = days)
        \/ exists ts' p3,
             p2 = (day_label (k + 1), ts') :: p3 /\ (k < days)%Z).
Proof.
  intros Hk.
  destruct (generated_day subjects h days exam now focus k Hk)
    as (p1 & ts & p2 & E & Hfresh).
  exists p1, ts, p2. split; [exact E|]. split; [exact Hfresh|].
  pose proof (plan_keys subjects h days exam now focus) as K.
  rewrite E in K. unfold Dict.keys in K. rewrite map_app in K. simpl in K.
  symmetry in K. apply map_eq_app in K.
  destruct K as (r1 & r2' & Hr & K1 & K2).
  apply map_eq_cons in K2. destruct K2 as (k' & r2 & -> & Hk' & K2).
  apply day_label_inj in Hk'. subst k'.
  assert (Hp1 : map day (ledger_of p1) = map day_label r1).
  { unfold ledger_of. rewrite map_map. simpl. symmetry. exact K1. }
  pose proof (day_range_NoDup days) as Hnd. rewrite Hr in Hnd.
  destruct (day_range_split days k r1 r2 Hr) as [[E2 Ed]|(r3 & E2)].
  - split.
    + rewrite Hp1. intros Hin. apply in_map_iff in Hin.
      destruct Hin as (x & Hx & Hin). apply day_label_inj in Hx. subst x.
      assert (Hb : In (k + 1)%Z (day_range days))
        by (rewrite Hr; apply in_or_app; left; exact Hin).
      apply day_range_bounds in Hb. lia.
    + left. subst r2. simpl in K2. symmetry in K2.
      apply map_eq_nil in K2. split; assumption.
  - split.
    + rewrite Hp1. intros Hin. apply in_map_iff in Hin.
      destruct Hin as (x & Hx & Hin). apply day_label_inj in Hx. subst x.
      subst r2. apply NoDup_remove_1 in Hnd.
      apply NoDup_remove_2 in Hnd. apply Hnd.
      apply in_or_app. left. exact Hin.
    + right. subst r2. simpl in K2.
      destruct p2 as [|[l ts'] p3]; [discriminate|].
      simpl in K2. injection K2 as K2 _. exists ts', p3.
      split; [rewrite <- K2; reflexivity|].
      assert (Hb : In (k + 1)%Z (day_range days))
        by (rewrite Hr; apply in_or_app; right; right; left; reflexivity).
      apply day_range_bounds in Hb. lia.
Qed.

(** X16. After a schedule is generated with more than 0.01 hours a day,
    every day from 1 to [days] can be skipped. The skip succeeds and moves
    the tasks of "Day k" to "Day k+1": before the last day they follow the
    tasks that "Day k+1" has, in the entry next in the ledger; for the last
    day a new pending entry "Day k+1" holds them at the end of the ledger.
    The entry of "Day k" is gone, the other entries stay, and the hours of
    the ledger are kept. *)
Theorem X16_skip_after_generate :
  forall st hours_per_day days exam_dt now priority k,
    subjects st <> [] -> 1 # 100 < hours_per_day -> (1 <= k <= days)%Z ->
    let plan :=
      smart_generate_plan (subjects st) hours_per_day days exam_dt now
        (Some priority) in
    let st1 :=
      fst (generate_schedule st hours_per_day days exam_dt now priority) in
    let st2 := fst (skip (day_label k) st1) in
    snd (skip (day_label k) st1)
    = Success ("Tasks moved from " ++ day_label k ++ " to "
               ++ day_label (k + 1) ++ ". Day skipped.")
    /\ ledger_hours (progress st2) == ledger_hours (progress st1)
    /\ exists p1 ts p2,
         plan = (p1 ++ (day_label k, ts) :: p2)%list
         /\ ts <> []
         /\ ((k = days /\ p2 = []
              /\ progress st2
                 = (ledger_of p1
                      ++ [mkEntry (day_label (k + 1)) ts false None])%list)
             \/ ((k < days)%Z
                 /\ exists ts' p3,
                      p2 = (day_label (k + 1), ts') :: p3
                      /\ progress st2
                         = (ledger_of p1
                              ++ mkEntry (day_label (k + 1)) (ts' ++ ts)
                                   false None
                              :: ledger_of p3)%list)).
Proof.
  intros st h days exam now priority k Hs Hh Hk plan st1 st2.
  subst plan st1 st2. unfold generate_schedule.
  destruct (subjects st) as [|s subs] eqn:Es; [congruence|]. clear Hs.
  destruct (generated_day_next (s :: subs) h days exam now (Some priority)
              k Hk) as (p1 & ts & p2 & E & Hfresh & Hnext & Hp2).
  cbn [fst].
  assert (Hts : ts <> []).
  { pose proof (plan_filled (s :: subs) h days exam now (Some priority))
      as Hall.
    rewrite E in Hall. apply Forall_elt in Hall.
    apply (day_filled_nonempty h ts Hh Hall). }
  rewrite (skip_spec _ (mkEntry (day_label k) ts false None)
             (ledger_of p1) (ledger_of p2));
    [ | simpl; rewrite E; destruct p1; reflexivity
      | simpl; rewrite E, ledger_of_app; reflexivity
      | apply find_day_None; exact Hfresh
      | exact Hts ].
  cbn [fst snd progress day tasks]. rewrite next_label_day_label.
  split; [reflexivity|]. split.
  - rewrite E, ledger_of_app. apply carried_hours.
  - exists p1, ts, p2. split; [exact E|]. split; [exact Hts|].
    unfold carried. cbn [day tasks]. rewrite next_label_day_label.
    apply find_day_None in Hnext.
    destruct Hp2 as [[-> ->]|(ts' & p3 & -> & Hlt)].
    + left. repeat split.
      cbn [ledger_of map]. rewrite app_nil_r, Hnext. reflexivity.
    + right. split; [exact Hlt|]. exists ts', p3. split; [reflexivity|].
      assert (F : find_day (day_label (k + 1))
                    (ledger_of p1
                       ++ ledger_of ((day_label (k + 1), ts') :: p3))
                  = Some (mkEntry (day_label (k + 1)) ts' false None)).
      { rewrite find_day_app, Hnext. unfold find_day. simpl.
        rewrite String.eqb_refl. reflexivity. }
      rewrite F.
      apply (extend_day_at (day_label (k + 1)) ts (ledger_of p1)
               (ledger_of p3)
               (mkEntry (day_label (k + 1)) ts' false None) Hnext).
      reflexivity.
Qed.

Lemma X16_skip_after_generate_witness :
  let plan := smart_generate_plan (subjects two_days) 4 2 None (at_time 0)
                (Some []) in
  let st1 := fst (generate_schedule two_days 4 2 None (at_time 0) []) in
  let st2 := fst (skip (day_label 1) st1) in
  snd (skip (day_label 1) st1)
  = Success ("Tasks moved from " ++ day_label 1 ++ " to "
             ++ day_label (1 + 1) ++ ". Day skipped.")
  /\ ledger_hours (progress st2) == ledger_hours (progress st1)
  /\ exists p1 ts p2,
       plan = (p1 ++ (day_label 1, ts) :: p2)%list
       /\ ts <> []
       /\ ((1%Z = 2%Z /\ p2 = []
            /\ progress st2
               = (ledger_of p1
                    ++ [mkEntry (day_label (1 + 1)) ts false None])%list)
           \/ ((1 < 2)%Z
               /\ exists ts' p3,
                    p2 = (day_label (1 + 1), ts') :: p3
                    /\ progress st2
                       = (ledger_of p1
                            ++ mkEntry (day_label (1 + 1)) (ts' ++ ts)
                                 false None
                            :: ledger_of p3)%list)).
Proof.
  apply (X16_skip_after_generate two_days 4 2 None (at_time 0) [] 1).
  - discriminate.
  - reflexivity.
  - lia.
Defined.

(** ** Regeneration *)

(** X17. "Regenerate" on a user with a plan always succeeds: the new plan
    has as many days as the old one, the ledger is rebuilt with one pending
    entry per day of the new plan, and the streak is kept. *)
Theorem X17_regenerate_keeps_day_count :
  forall st goal now,
    no_plan (plans st) = false ->
    exists plan plan_new,
      plans st = Some plan
      /\ regenerate_schedule st goal now
         = (mkUserState (subjects st) (Some plan_new) (ledger_of plan_new)
              (streaks st),
            Success "Schedule regenerated.")
      /\ List.length plan_new = List.length plan
      /\ map day (ledger_of plan_new)
         = map (fun i => "Day " ++ Py.str (Z.of_nat i))
             (seq 1 (List.length plan))
      /\ Forall (fun en => completed en = false /\ date en = None)
           (ledger_of plan_new).
Proof.
  intros st goal now Hplan. unfold regenerate_schedule.
  destruct (plans st) as [[|kv plan]|]; try discriminate.
  set (old := kv :: plan).
  assert (Hd : (if (Z.of_nat (List.length old) =? 0)%Z then 14%Z
                else Z.of_nat (List.length old))
               = Z.of_nat (List.length old)) by reflexivity.
  rewrite Hd.
  eexists. eexists. split; [reflexivity|]. split; [reflexivity|].
  split; [|split].
  - rewrite plan_length. apply Nat2Z.id.
  - unfold ledger_of. rewrite map_map. cbn [day].
    change (map (fun x : string * list Task => fst x) ?p)
      with (Dict.keys p).
    rewrite plan_keys, day_range_labels, Nat2Z.id. reflexivity.
  - unfold ledger_of. apply Forall_map, Forall_forall.
    intros x _. simpl. split; reflexivity.
Qed.

Lemma X17_regenerate_keeps_day_count_witness :
  exists plan plan_new,
    plans two_days = Some plan
    /\ regenerate_schedule two_days 3 (at_time 0)
       = (mkUserState (subjects two_days) (Some plan_new)
            (ledger_of plan_new) (streaks two_days),
          Success "Schedule regenerated.")
    /\ List.length plan_new = List.length plan
    /\ map day (ledger_of plan_new)
       = map (fun i => "Day " ++ Py.str (Z.of_nat i))
           (seq 1 (List.length plan))
    /\ Forall (fun en => completed en = false /\ date en = None)
         (ledger_of plan_new).
Proof.
  apply (X17_regenerate_keeps_day_count two_days 3 (at_time 0)). reflexivity.
Defined.




(** ** Adding a subject *)

(** X19. A subject with a non-empty name is appended to the subjects,
    whether or not the name is already there, and after that "Generate
    schedule" does not report the missing-subject error but stores a plan
    of [days] days. *)
Theorem X19_generate_after_add_subject :
  forall st name diff hours_per_day days exam_dt now priority,
    name <> "" ->
    let st1 := fst (add_subject st name diff) in
    subjects st1 = (subjects st ++ [mkSubject name (Some diff)])%list
    /\ snd (generate_schedule st1 hours_per_day days exam_dt now priority)
       = Success "Schedule generated and saved."
    /\ List.length
         (progress
            (fst (generate_schedule st1 hours_per_day days exam_dt now
                    priority)))
       = Z.to_nat days.
Proof.
  intros st name diff h days exam now priority Hn st1. subst st1.
  destruct name as [|c r]; [congruence|]. cbn [add_subject fst subjects].
  split; [reflexivity|].
  unfold generate_schedule. cbn [subjects].
  destruct (subjects st ++ [mkSubject (String c r) (Some diff)])%list
    as [|s subs] eqn:E.
  - destruct (subjects st); discriminate.
  - cbn [fst snd progress]. split; [reflexivity|].
    unfold ledger_of. rewrite length_map. apply plan_length.
Qed.

Lemma X19_generate_after_add_subject_witness :
  let st1 := fst (add_subject two_days "Math" "easy") in
  subjects st1 = (subjects two_days ++ [mkSubject "Math" (Some "easy")])%list
  /\ snd (generate_schedule st1 4 3 None (at_time 0) [])
     = Success "Schedule generated and saved."
  /\ List.length (progress (fst (generate_schedule st1 4 3 None (at_time 0) [])))
     = Z.to_nat 3.
Proof.
  apply (X19_generate_after_add_subject two_days "Math" "easy" 4 3 None (at_time 0) []).
  discriminate.
Defined.

(** * The weekly report and the dashboard *)

(** ** Sorting, largest first *)

Lemma insert_desc_perm {A} (key : A -> Q) (x : A) (l : list A) :
  Permutation (insert_desc key x l) (x :: l).
Proof.
  induction l as [|y r IH]; simpl; [reflexivity|].
  destruct (Py.Qlt_bool (key x) (key y)); [|reflexivity].
  rewrite IH. apply perm_swap.
Qed.

Lemma sorted_reverse_perm {A} (key : A -> Q) (l : list A) :
  Permutation (sorted_reverse key l) l.
Proof.
  induction l as [|x r IH]; simpl; [reflexivity|].
  rewrite insert_desc_perm. constructor. exact IH.
Qed.

Lemma insert_desc_sorted {A} (key : A -> Q) (x : A) (l : list A) :
  StronglySorted (fun a b => key b <= key a) l ->
  StronglySorted (fun a b => key b <= key a) (insert_desc key x l).
Proof.
  induction 1 as [|y r Hr IH Hy]; simpl.
  - constructor; constructor.
  - destruct (Py.Qlt_bool (key x) (key y)) eqn:E.
    + apply Qlt_bool_true in E. constructor; [exact IH|].
      apply (Permutation_Forall (Permutation_sym (insert_desc_perm key x r))).
      constructor; [lra | exact Hy].
    + apply Qlt_bool_false in E. constructor.
      * constructor; assumption.
      * constructor; [lra|].
        eapply Forall_impl; [|exact Hy]. simpl. intros z Hz. lra.
Qed.

Lemma sorted_reverse_sorted {A} (key : A -> Q) (l : list A) :
  StronglySorted (fun a b => key b <= key a) (sorted_reverse key l).
Proof.
  induction l as [|x r IH]; simpl; [constructor|].
  apply insert_desc_sorted. exact IH.
Qed.

(** A list that is sorted already is left as it is. *)
Lemma sorted_reverse_fixed {A} (key : A -> Q) (l : list A) :
  StronglySorted (fun a b => key b <= key a) l -> sorted_reverse key l = l.
Proof.
  induction 1 as [|x r Hr IH Hx]; simpl; [reflexivity|].
  rewrite IH. destruct r as [|y r']; [reflexivity|]. simpl.
  apply Forall_inv in Hx.
  replace (Py.Qlt_bool (key x) (key y)) with false; [reflexivity|].
  symmetry. apply Qlt_bool_false. exact Hx.
Qed.

(** ** Hours per subject *)

Lemma values_sum_set (k : string) (v : Q) (d : Dict.t Q) :
  Py.sum (Dict.values (Dict.set k v d))
  == Py.sum (Dict.values d)
     - match Dict.get k d with Some w => w | None => 0 end + v.
Proof.
  induction d as [|[k' w] r IH]; simpl.
  - unfold Py.sum. simpl. lra.
  - destruct (String.eqb k k'); simpl.
    + rewrite !sum_cons. lra.
    + rewrite !sum_cons, IH. lra.
Qed.

Lemma add_hours_sum (d : Dict.t Q) (t : Task) :
  Py.sum (Dict.values (add_hours d t)) == Py.sum (Dict.values d) + hours t.
Proof. unfold add_hours. rewrite values_sum_set. lra. Qed.

Lemma add_tasks_sum (l : list Task) :
  forall d,
    Py.sum (Dict.values (fold_left add_hours l d))
    == Py.sum (Dict.values d) + tasks_hours l.
Proof.
  induction l as [|t r IH]; intros d; simpl.
  - rewrite tasks_hours_nil. lra.
  - rewrite IH, add_hours_sum.
    unfold tasks_hours. simpl. rewrite sum_cons. lra.
Qed.

Lemma subj_hours_fold_sum (l : list Entry) :
  forall d,
    Py.sum
      (Dict.values
         (fold_left (fun acc entry => fold_left add_hours (tasks entry) acc)
            l d))
    == Py.sum (Dict.values d) + ledger_hours l.
Proof.
  induction l as [|en r IH]; intros d; simpl.
  - unfold ledger_hours, Py.sum. simpl. lra.
  - rewrite IH, add_tasks_sum, ledger_hours_cons. lra.
Qed.

(** X20. The total of the report, summed over the subjects, is the total
    of the hours of all the tasks of the ledger: grouping the tasks by
    subject loses no hours. *)
Theorem X20_report_total_hours :
  forall progress r,
    page_report progress = Some r ->
    report_total_hours r == ledger_hours progress
    /\ Py.sum (map snd (report_chart r)) == ledger_hours progress.
Proof.
  intros progress r H. unfold page_report in H.
  destruct progress as [|en rest]; [discriminate|].
  injection H as <-. cbn [report_total_hours report_chart].
  assert (T : Py.sum (Dict.values (subj_hours_of (en :: rest)))
              == ledger_hours (en :: rest)).
  { unfold subj_hours_of. rewrite subj_hours_fold_sum.
    unfold Py.sum at 1. simpl. lra. }
  split; [exact T|].
  rewrite <- T. unfold Dict.values.
  set (d := subj_hours_of (en :: rest)).
  pose proof (Permutation_map snd (sorted_reverse_perm snd d)) as P.
  clearbody d. clear T.
  induction P as [|x l l' P IH|x y l|l l' l'' P1 IH1 P2 IH2].
  - reflexivity.
  - rewrite !sum_cons, IH. reflexivity.
  - rewrite !sum_cons. lra.
  - rewrite IH1. exact IH2.
Qed.

Lemma X20_report_total_hours_witness :
  exists r,
    page_report (progress two_days) = Some r
    /\ report_total_hours r == ledger_hours (progress two_days)
    /\ Py.sum (map snd (report_chart r)) == ledger_hours (progress two_days).
Proof.
  eexists. split; [reflexivity|].
  apply (X20_report_total_hours (progress two_days)). reflexivity.
Defined.

(** ** Rates and scores *)

Lemma round_half_even_upper (y : Q) (n : Z) :
  y <= inject_Z n -> (Py.round_half_even y <= n)%Z.
Proof.
  intros Hy. unfold Py.round_half_even.
  pose proof (Qfloor_le y) as Hlo.
  assert (Hn : (Qfloor y <= n)%Z) by (rewrite Zle_Qle; lra).
  destruct (Z.eq_dec (Qfloor y) n) as [E|E].
  - rewrite E in *.
    destruct (Qcompare (y - inject_Z n) (1 # 2)) eqn:C.
    + apply Qeq_alt in C. lra.
    + lia.
    + apply Qgt_alt in C. lra.
  - destruct (Qcompare _ _); [destruct (Z.even _)| |]; lia.
Qed.

Lemma round_half_even_lower (y : Q) (n : Z) :
  inject_Z n <= y -> (n <= Py.round_half_even y)%Z.
Proof.
  intros Hy. unfold Py.round_half_even.
  assert (Hn : (n <= Qfloor y)%Z).
  { rewrite <- (Qfloor_Z n). apply Qfloor_resp_le. exact Hy. }
  destruct (Qcompare _ _); [destruct (Z.even _)| |]; lia.
Qed.

Lemma round1_bounds (x : Q) : 0 <= x <= 100 -> 0 <= round1 x <= 100.
Proof.
  intros [H0 H1]. unfold round1.
  assert (Hu : (Py.round_half_even (x * 10) <= 1000)%Z)
    by (apply round_half_even_upper; change (inject_Z 1000) with 1000; lra).
  assert (Hl : (0 <= Py.round_half_even (x * 10))%Z)
    by (apply round_half_even_lower; change (inject_Z 0) with 0; lra).
  unfold Qle. simpl. lia.
Qed.

Lemma completed_days_fold (l : list Entry) :
  forall n,
    (n <= fold_left (fun n entry => if completed entry then n + 1 else n) l n
       <= n + Z.of_nat (List.length l))%Z.
Proof.
  induction l as [|en r IH]; intros n; simpl; [lia|].
  destruct (completed en).
  - specialize (IH (n + 1)%Z). lia.
  - specialize (IH n). lia.
Qed.

Lemma completion_rate_bounds (c t : Z) :
  (0 <= c <= t)%Z -> (0 < t)%Z ->
  0 <= round1 ((inject_Z c / inject_Z t) * 100) <= 100.
Proof.
  intros Hc Ht. apply round1_bounds.
  assert (Hc0 : 0 <= inject_Z c)
    by (change 0 with (inject_Z 0); rewrite <- Zle_Qle; lia).
  assert (Hct : inject_Z c <= inject_Z t) by (rewrite <- Zle_Qle; lia).
  assert (Ht0 : 0 < inject_Z t)
    by (change 0 with (inject_Z 0); rewrite <- Zlt_Qlt; lia).
  pose proof (Qinv_lt_0_compat _ Ht0) as Hi.
  assert (Hone : inject_Z t * / inject_Z t == 1)
    by (apply Qmult_inv_r; lra).
  unfold Qdiv. set (i := / inject_Z t) in *. nra.
Qed.

Lemma report_rate_bounds progress r :
  page_report progress = Some r -> 0 <= report_completion_rate r <= 100.
Proof.
  intros H. unfold page_report in H.
  destruct progress as [|en rest]; [discriminate|].
  injection H as <-. cbn [report_completion_rate].
  pose proof (completed_days_fold (en :: rest) 0) as Hc.
  fold (completed_days_of (en :: rest)) in Hc.
  apply (completion_rate_bounds (completed_days_of (en :: rest))
           (Z.of_nat (List.length (en :: rest)))).
  - lia.
  - simpl. lia.
Qed.

(** X21. In the report the completed days are between 0 and the number of
    entries of the ledger, and the completion rate is between 0 and 100. *)
Theorem X21_report_completion_bounds :
  forall progress r,
    page_report progress = Some r ->
    (0 <= report_completed_days r <= Z.of_nat (List.length progress))%Z
    /\ 0 <= report_completion_rate r <= 100.
Proof.
  intros progress r H. split; [|apply (report_rate_bounds progress r H)].
  unfold page_report in H.
  destruct progress as [|en rest]; [discriminate|].
  injection H as <-. cbn [report_completed_days].
  pose proof (completed_days_fold (en :: rest) 0) as Hc.
  fold (completed_days_of (en :: rest)) in Hc. lia.
Qed.

Lemma X21_report_completion_bounds_witness :
  exists r,
    page_report (progress two_days) = Some r
    /\ (0 <= report_completed_days r
          <= Z.of_nat (List.length (progress two_days)))%Z
    /\ 0 <= report_completion_rate r <= 100.
Proof.
  eexists. split; [reflexivity|].
  apply (X21_report_completion_bounds (progress two_days)). reflexivity.
Defined.

Lemma int_of_float_upper (x : Q) (n : Z) :
  (0 <= n)%Z -> x <= inject_Z n -> (int_of_float x <= n)%Z.
Proof.
  intros Hn Hx. unfold int_of_float. destruct (Qle_bool 0 x) eqn:E.
  - rewrite <- (Qfloor_Z n). apply Qfloor_resp_le. exact Hx.
  - apply Qle_bool_false in E.
    assert (H0 : (Qceiling x <= 0)%Z).
    { rewrite <- (Qceiling_Z 0). apply Qceiling_resp_le.
      change (inject_Z 0) with 0. lra. }
    lia.
Qed.

Lemma int_of_float_nonneg (x : Q) : 0 <= x -> (0 <= int_of_float x)%Z.
Proof.
  intros Hx. unfold int_of_float.
  apply Qle_bool_iff in Hx. rewrite Hx.
  rewrite <- (Qfloor_Z 0). apply Qfloor_resp_le.
  apply Qle_bool_iff in Hx. exact Hx.
Qed.

Lemma ledger_hours_nonneg (l : list Entry) :
  Forall (fun t => 0 <= hours t) (ledger_tasks l) -> 0 <= ledger_hours l.
Proof.
  unfold ledger_tasks. induction l as [|en r IH]; simpl; intros H.
  - unfold ledger_hours, Py.sum. simpl. lra.
  - apply Forall_app in H. destruct H as [Hen Hr].
    rewrite ledger_hours_cons. specialize (IH Hr).
    assert (He : 0 <= tasks_hours (tasks en)).
    { clear - Hen. induction Hen as [|t ts Ht Hts IHt].
      - rewrite tasks_hours_nil. lra.
      - unfold tasks_hours in *. simpl. rewrite sum_cons. lra. }
    lra.
Qed.

(** X22. The productivity score of the report never exceeds 75, so that
    its cap of 100 is never reached; it is not negative when no task of the
    ledger has negative hours. *)
Theorem X22_report_productivity_bounds :
  forall progress r,
    page_report progress = Some r ->
    (report_productivity r <= 75)%Z
    /\ (Forall (fun t => 0 <= hours t) (ledger_tasks progress) ->
        (0 <= report_productivity r)%Z).
Proof.
  intros progress r H.
  pose proof H as Hr.
  pose proof (report_rate_bounds progress r H) as Hrate.
  assert (Htot : report_total_hours r == ledger_hours progress).
  { unfold page_report in Hr.
    destruct progress as [|en rest]; [discriminate|].
    injection Hr as <-. cbn [report_total_hours].
    unfold subj_hours_of. rewrite subj_hours_fold_sum.
    unfold Py.sum at 1. simpl. lra. }
  assert (Hp : report_productivity r
               = Z.min 100
                   (int_of_float
                      ((report_completion_rate r * (6 # 10)
                        + Py.min (report_total_hours r / 7) 6 * 10)
                       / (16 # 10)))).
  { unfold page_report in Hr.
    destruct progress as [|en rest]; [discriminate|].
    injection Hr as <-. reflexivity. }
  rewrite Hp.
  set (m := Py.min (report_total_hours r / 7) 6).
  assert (Hm : m <= 6).
  { unfold m, Py.min.
    destruct (Py.Qlt_bool 6 (report_total_hours r / 7)) eqn:E; [lra|].
    apply Qlt_bool_false in E. exact E. }
  assert (Hdiv : forall e, e / (16 # 10) == e * (10 # 16))
    by (intros e; unfold Qdiv; reflexivity).
  split.
  - apply Z.min_le_iff. right. apply int_of_float_upper; [lia|].
    rewrite Hdiv. change (inject_Z 75) with 75. lra.
  - intros Hpos. apply Z.min_glb; [lia|].
    apply int_of_float_nonneg. rewrite Hdiv.
    assert (H0 : 0 <= m).
    { pose proof (ledger_hours_nonneg progress Hpos) as Hl.
      unfold m, Py.min.
      destruct (Py.Qlt_bool 6 (report_total_hours r / 7)); [lra|].
      unfold Qdiv. rewrite Htot. change (/ 7) with (1 # 7). lra. }
    lra.
Qed.

Lemma X22_report_productivity_bounds_witness :
  exists r,
    page_report (progress two_days) = Some r
    /\ (report_productivity r <= 75)%Z
    /\ (Forall (fun t => 0 <= hours t) (ledger_tasks (progress two_days)) ->
        (0 <= report_productivity r)%Z).
Proof.
  eexists. split; [reflexivity|].
  apply (X22_report_productivity_bounds (progress two_days)). reflexivity.
Defined.

(** ** The chart and the focus area of the report *)






(** ** Today's focus *)

Lemma sum_perm (l l' : list Q) : Permutation l l' -> Py.sum l == Py.sum l'.
Proof.
  induction 1 as [|x l l' P IH|x y l|l l' l'' P1 IH1 P2 IH2].
  - reflexivity.
  - rewrite !sum_cons, IH. reflexivity.
  - rewrite !sum_cons. lra.
  - rewrite IH1. exact IH2.
Qed.

(** X24. Showing today's focus reorders tasks inside one entry and changes
    nothing else: labels, completion marks and dates are kept, every entry
    keeps its tasks up to their order, and the hours of the ledger are
    the same. *)
Theorem X24_todays_focus_keeps_the_ledger :
  forall plan_list,
    let after := fst (todays_focus plan_list) in
    map day after = map day plan_list
    /\ map completed after = map completed plan_list
    /\ map date after = map date plan_list
    /\ Forall2 (fun a b => Permutation (tasks a) (tasks b)) after plan_list
    /\ ledger_hours after == ledger_hours plan_list.
Proof.
  intros l. simpl.
  assert (Hrefl : forall r : list Entry,
             Forall2 (fun a b => Permutation (tasks a) (tasks b)) r r).
  { induction r; constructor; [reflexivity | assumption]. }
  induction l as [|item rest IH]; simpl.
  - split; [|split; [|split; [|split]]];
      reflexivity || constructor.
  - destruct (completed item) eqn:Ec.
    + destruct IH as (I1 & I2 & I3 & I4 & I5). simpl.
      rewrite I1, I2, I3, ?Ec.
      split; [|split; [|split; [|split]]]; try reflexivity.
      * constructor; [reflexivity | exact I4].
      * rewrite !ledger_hours_cons, I5. reflexivity.
    + destruct (tasks item) as [|t ts] eqn:Et.
      * simpl. rewrite ?Ec.
        split; [|split; [|split; [|split]]]; try reflexivity.
        apply Hrefl.
      * cbn [fst map day completed date]. rewrite ?Ec.
        split; [|split; [|split; [|split]]]; try reflexivity.
        -- constructor; [|apply Hrefl]. cbn [tasks]. rewrite Et.
           apply sorted_reverse_perm.
        -- rewrite !ledger_hours_cons. cbn [tasks]. rewrite Et.
           unfold tasks_hours.
           rewrite (sum_perm _ _
                      (Permutation_map hours
                         (sorted_reverse_perm hours (t :: ts)))).
           reflexivity.
Qed.

(** X25. The focus shown is the subject, with its note, of a task that has
    the most hours among the tasks of the first pending entry. *)
Theorem X25_todays_focus_is_the_longest_task :
  forall plan_list focus note_shown,
    snd (todays_focus plan_list) = Some (focus, note_shown) ->
    exists pre item post t,
      plan_list = (pre ++ item :: post)%list
      /\ forallb completed pre = true
      /\ completed item = false
      /\ In t (tasks item)
      /\ subject t = focus /\ note t = note_shown
      /\ forall u, In u (tasks item) -> hours u <= hours t.
Proof.
  induction plan_list as [|item rest IH]; intros f n H; simpl in H;
    [discriminate|].
  destruct (completed item) eqn:Ec.
  - simpl in H. destruct (IH f n H)
      as (pre & it & post & t & E & Hpre & Hc & Ht & Hs & Hn & Hmax).
    exists (item :: pre), it, post, t. simpl. rewrite Ec, Hpre, E.
    repeat split; auto.
  - destruct (tasks item) as [|t0 ts] eqn:Et; [discriminate|].
    cbn [snd] in H.
    pose proof (sorted_reverse_perm hours (t0 :: ts)) as P.
    pose proof (sorted_reverse_sorted hours (t0 :: ts)) as S.
    destruct (sorted_reverse hours (t0 :: ts)) as [|t sorted] eqn:Es;
      [discriminate|].
    destruct (subject t) eqn:Esub; [discriminate|].
    injection H as <- <-.
    exists [], item, rest, t. rewrite Et. repeat split; auto.
    + apply (Permutation_in _ P). left. reflexivity.
    + intros u Hu. apply (Permutation_in _ (Permutation_sym P)) in Hu.
      destruct Hu as [->|Hu]; [lra|].
      apply StronglySorted_inv in S. destruct S as [_ S].
      rewrite Forall_forall in S. apply S. exact Hu.
Qed.

Lemma X25_todays_focus_is_the_longest_task_witness :
  exists pre item post t,
    progress two_days = (pre ++ item :: post)%list
    /\ forallb completed pre = true
    /\ completed item = false
    /\ In t (tasks item)
    /\ subject t = "Math" /\ note t = "Summarize key formulas"
    /\ forall u, In u (tasks item) -> hours u <= hours t.
Proof.
  apply (X25_todays_focus_is_the_longest_task (progress two_days)).
  reflexivity.
Defined.

(** X26. Showing today's focus a second time changes nothing more and
    shows the same focus. *)
Theorem X26_todays_focus_twice :
  forall plan_list,
    todays_focus (fst (todays_focus plan_list)) = todays_focus plan_list.
Proof.
  induction plan_list as [|item rest IH]; simpl; [reflexivity|].
  destruct (completed item) eqn:Ec.
  - simpl. rewrite Ec, IH. reflexivity.
  - destruct (tasks item) as [|t ts] eqn:Et.
    + simpl. rewrite Ec, Et. reflexivity.
    + cbn [fst todays_focus completed tasks day date]. rewrite ?Ec.
      pose proof (sorted_reverse_perm hours (t :: ts)) as P.
      rewrite (sorted_reverse_fixed hours (sorted_reverse hours (t :: ts)))
        by apply sorted_reverse_sorted.
      destruct (sorted_reverse hours (t :: ts)) as [|t' s'] eqn:Es.
      * apply Permutation_nil in P. discriminate.
      * reflexivity.
Qed.

(** * Accounts and sessions *)

Lemma Dict_get_set_same {V} (k : string) (v : V) (d : Dict.t V) :
  Dict.get k (Dict.set k v d) = Some v.
Proof.
  induction d as [|[k' v'] r IH]; simpl.
  - rewrite String.eqb_refl. reflexivity.
  - destruct (String.eqb k k') eqn:E; simpl; rewrite E; [reflexivity|].
    exact IH.
Qed.


Lemma is_empty_false (s : string) : s <> "" -> Session.is_empty s = false.
Proof. destruct s; [congruence | reflexivity]. Qed.

(** X27. An account created with a free user name and non-empty user name,
    password and email can sign in with its password at once, whatever the
    "confirm password" field held, and with no other password. *)
Theorem X27_sign_in_after_sign_up :
  forall ss load_user_data name username email password confirm,
    username <> "" -> password <> "" -> email <> "" ->
    Dict.get username (Session.users ss) = None ->
    let created :=
      Session.page_signup_inline ss name username email password confirm in
    snd created = Success "Account created. You can now sign in."
    /\ snd (Session.page_login (fst created) load_user_data username password)
       = Success "Signed in. Proceed to the app."
    /\ Session.logged_in
         (fst (Session.page_login (fst created) load_user_data username
                 password))
       = Some username
    /\ forall other,
         other <> password ->
         Session.page_login (fst created) load_user_data username other
         = (fst created,
            Error "Invalid credentials. Check username/password.").
Proof.
  intros ss load name u e p c Hu Hp He Hfree created. subst created.
  unfold Session.page_signup_inline.
  rewrite (is_empty_false u Hu), (is_empty_false p Hp),
    (is_empty_false e He), Hfree.
  cbn [orb fst snd].
  split; [reflexivity|].
  unfold Session.page_login. cbn [Session.users Session.ensure_user_storage].
  rewrite Dict_get_set_same. cbn [Session.password].
  split; [|split].
  - rewrite String.eqb_refl. reflexivity.
  - rewrite String.eqb_refl. cbn [fst].
    destruct (load u); reflexivity.
  - intros other Ho.
    replace (String.eqb p other) with false; [reflexivity|].
    symmetry. apply String.eqb_neq. congruence.
Qed.

Lemma X27_sign_in_after_sign_up_witness :
  let created :=
    Session.page_signup_inline empty_session "Ada" "ada" "ada@example.com"
      "s3cret" "mistyped" in
  snd created = Success "Account created. You can now sign in."
  /\ snd (Session.page_login (fst created) (fun _ => None) "ada" "s3cret")
     = Success "Signed in. Proceed to the app."
  /\ Session.logged_in
       (fst (Session.page_login (fst created) (fun _ => None) "ada" "s3cret"))
     = Some "ada"
  /\ forall other,
       other <> "s3cret" ->
       Session.page_login (fst created) (fun _ => None) "ada" other
       = (fst created, Error "Invalid credentials. Check username/password.").
Proof.
  apply (X27_sign_in_after_sign_up empty_session (fun _ => None) "Ada" "ada"
           "ada@example.com" "s3cret" "mistyped");
    (discriminate || reflexivity).
Defined.

(** X28. Signing up with an empty user name, password or email, or with a
    user name that is taken, is refused with an error and changes nothing:
    the existing account keeps its record. *)
Theorem X28_sign_up_refused :
  forall ss name username email password confirm,
    username = "" \/ password = "" \/ email = ""
    \/ Dict.get username (Session.users ss) <> None ->
    fst (Session.page_signup_inline ss name username email password confirm)
    = ss
    /\ exists msg,
         snd (Session.page_signup_inline ss name username email password
                confirm)
         = Error msg.
Proof.
  intros ss name u e p c H. unfold Session.page_signup_inline.
  destruct (Session.is_empty u || Session.is_empty p || Session.is_empty e)
    eqn:E.
  - split; [reflexivity | eexists; reflexivity].
  - apply orb_false_iff in E. destruct E as [E He].
    apply orb_false_iff in E. destruct E as [Hu Hp].
    destruct H as [->|[->|[->|H]]]; try discriminate.
    destruct (Dict.get u (Session.users ss)); [|congruence].
    split; [reflexivity | eexists; reflexivity].
Qed.

Lemma X28_sign_up_refused_witness :
  fst (Session.page_signup_inline empty_session "Ada" "ada" "" "s3cret"
         "s3cret")
  = empty_session
  /\ exists msg,
       snd (Session.page_signup_inline empty_session "Ada" "ada" "" "s3cret"
              "s3cret")
       = Error msg.
Proof.
  apply (X28_sign_up_refused empty_session "Ada" "ada" "" "s3cret" "s3cret").
  right. right. left. reflexivity.
Defined.

(** X29. Signing in succeeds exactly when the user name has an account
    whose stored password is the one typed; then that user is signed in and
    the accounts are untouched. Otherwise an error is shown and the session
    is unchanged. *)
Theorem X29_sign_in :
  forall ss load_user_data username password,
    let r := Session.page_login ss load_user_data username password in
    (snd r = Success "Signed in. Proceed to the app."
     <-> exists u, Dict.get username (Session.users ss) = Some u
                   /\ Session.password u = password)
    /\ (snd r = Success "Signed in. Proceed to the app." ->
        Session.logged_in (fst r) = Some username
        /\ Session.users (fst r) = Session.users ss)
    /\ (snd r <> Success "Signed in. Proceed to the app." ->
        r = (ss, Error "Invalid credentials. Check username/password.")).
Proof.
  intros ss load u p r. subst r. unfold Session.page_login.
  destruct (Dict.get u (Session.users ss)) as [usr|] eqn:G.
  - destruct (String.eqb (Session.password usr) p) eqn:E.
    + apply String.eqb_eq in E. cbn [fst snd]. split; [|split].
      * split; [intros _; exists usr; auto | reflexivity].
      * intros _. destruct (load u); split; reflexivity.
      * congruence.
    + apply String.eqb_neq in E. cbn [fst snd]. split; [|split].
      * split; [discriminate|]. intros (u' & Hu & Hp). congruence.
      * discriminate.
      * reflexivity.
  - cbn [fst snd]. split; [|split].
    + split; [discriminate|]. intros (u' & Hu & _). discriminate.
    + discriminate.
    + reflexivity.
Qed.


